(** * Feedbacks.svelte: the feedback table, its analysis panel and its handlers

    A shallow embedding of the script block of
    [src/lib/components/admin/Evaluations/Feedbacks.svelte]: the component's
    [let] variables become one [State] record, every handler becomes a
    function on that record, and the answers of the evaluations API (which
    lives outside this file) are inputs of the handlers that await them. *)

From Stdlib Require Import List String Ascii ZArith Bool Arith Lia.
Import ListNotations.
Local Open Scope string_scope.

(* ------------------------------------------------------------------------- *)
(** ** The string primitives of the host language                             *)
(* ------------------------------------------------------------------------- *)

(** Strings are sequences of code units; the model keeps the code units below
    256 (Latin-1), on which [toLowerCase] and [trim] are closed. *)
Module JsString.

(** White space and line terminators of the language, as far as they lie in
    Latin-1: TAB, LF, VT, FF, CR, SP and NBSP. *)
Definition isWhiteSpace (c : ascii) : bool :=
  let n := nat_of_ascii c in
  ((n =? 9) || (n =? 10) || (n =? 11) || (n =? 12) || (n =? 13)
   || (n =? 32) || (n =? 160))%nat.

(** Lower-casing of one code unit: A-Z, and the capital letters U+00C0 to
    U+00DE except the multiplication sign U+00D7, move up by 32. *)
Definition lowerChar (c : ascii) : ascii :=
  let n := nat_of_ascii c in
  if (((65 <=? n) && (n <=? 90))
      || ((192 <=? n) && (n <=? 222) && negb (n =? 215)))%nat
  then ascii_of_nat (n + 32)
  else c.

(** [s.toLowerCase()] *)
Fixpoint toLowerCase (s : string) : string :=
  match s with
  | EmptyString => EmptyString
  | String c r => String (lowerChar c) (toLowerCase r)
  end.

Fixpoint trimStart (s : string) : string :=
  match s with
  | EmptyString => EmptyString
  | String c r => if isWhiteSpace c then trimStart r else s
  end.

Fixpoint trimEnd (s : string) : string :=
  match s with
  | EmptyString => EmptyString
  | String c r =>
      match trimEnd r with
      | EmptyString => if isWhiteSpace c then EmptyString else String c EmptyString
      | r' => String c r'
      end
  end.

(** [s.trim()] *)
Definition trim (s : string) : string := trimEnd (trimStart s).

(** Truthiness of a string value: every string but the empty one. *)
Definition truthy (s : string) : bool :=
  match s with
  | EmptyString => false
  | String _ _ => true
  end.

(** Truthiness of a property that may be absent ([undefined] is falsy). *)
Definition truthyOpt (o : option string) : bool :=
  match o with
  | Some s => truthy s
  | None => false
  end.

(** [s.includes(sub)]: [sub] occurs in [s] at some position. *)
Fixpoint includes (s sub : string) : bool :=
  String.prefix sub s
  || match s with
     | EmptyString => false
     | String _ r => includes r sub
     end.

(** [parts.join('')] *)
Definition join (parts : list string) : string :=
  fold_right String.append EmptyString parts.

(** Every code unit of the string is white space (the empty string too). *)
Fixpoint blank (s : string) : bool :=
  match s with
  | EmptyString => true
  | String c r => isWhiteSpace c && blank r
  end.

(** The mathematical notion [includes] decides. *)
Definition substring_of (sub s : string) : Prop :=
  exists before after, s = before ++ sub ++ after.

End JsString.
Import JsString.

(* ------------------------------------------------------------------------- *)
(** ** The data model: [type Feedback]                                        *)
(* ------------------------------------------------------------------------- *)

(** A property the code reads through [?.], tests for truthiness, or removes,
    is optional in the model; [None] is the absent property. *)

Module MessageError.
Record t := make { content : option string }.
End MessageError.

Module Message.
Record t := make {
  role : string;
  content : option string;
  annotation : option string;
  feedbackId : option string;
  error : option MessageError.t
}.
End Message.

(** The inner [chat] object of a snapshot; [messages] is [None] when the
    property is absent or is not an array. *)
Module ChatBody.
Record t := make { messages : option (list Message.t) }.
End ChatBody.

Module Chat.
Record t := make {
  title : option string;
  chat : option ChatBody.t
}.
End Chat.

Module Snapshot.
Record t := make { chat : option Chat.t }.
End Snapshot.

Module Details.
Record t := make { rating : option Z }.
End Details.

Module Data.
Record t := make {
  rating : option Z;
  model_id : string;
  sibling_model_ids : option (list string);
  reason : string;
  comment : string;
  tags : list string;
  details : option Details.t
}.
End Data.

Module User.
Record t := make {
  name : string;
  profile_image_url : string
}.
End User.

Module Meta.
Record t := make {
  model_id : option string;
  tags : option (list string)
}.
End Meta.

Module Feedback.
Record t := make {
  id : string;
  data : option Data.t;
  user : option User.t;
  updated_at : Z;
  created_at : option Z;
  browser_id : option string;
  snapshot : option Snapshot.t;
  meta : option Meta.t
}.
End Feedback.

(** Notifications raised through [toast]; the text of a translated message is
    its translation key. *)
Inductive Toast :=
| ToastError (msg : string)
| ToastSuccess (msg : string)
| ToastInfo (msg : string).

(** How an awaited API call settles. *)
Inductive Settled (A : Type) :=
| Fulfilled (value : A)
| Rejected (err : string).
Arguments Fulfilled {A} value.
Arguments Rejected {A} err.

(** The component's variables, and the notifications shown so far. *)
Record State := mkState {
  feedbacks : list Feedback.t;
  originalFeedbacksData : list Feedback.t;
  parsedFeedbacksData : list Feedback.t;
  showFeedbackAnalysis : bool;
  activeFilter : string;
  searchQuery : string;
  page : nat;
  totalItems : nat;
  positiveCount : nat;
  negativeCount : nat;
  toasts : list Toast
}.

(** The variables as the script initialises them, around the [feedbacks] the
    parent component passes in. *)
Definition initialState (fs : list Feedback.t) : State :=
  {| feedbacks := fs;
     originalFeedbacksData := [];
     parsedFeedbacksData := [];
     showFeedbackAnalysis := false;
     activeFilter := "all";
     searchQuery := EmptyString;
     page := 1;
     totalItems := 0;
     positiveCount := 0;
     negativeCount := 0;
     toasts := [] |}.

(* ------------------------------------------------------------------------- *)
(** ** Assignments to the component's variables                               *)
(* ------------------------------------------------------------------------- *)

Definition set_feedbacks (v : list Feedback.t) (s : State) : State :=
  mkState v (originalFeedbacksData s) (parsedFeedbacksData s)
    (showFeedbackAnalysis s) (activeFilter s) (searchQuery s) (page s)
    (totalItems s) (positiveCount s) (negativeCount s) (toasts s).

Definition set_originalFeedbacksData (v : list Feedback.t) (s : State) : State :=
  mkState (feedbacks s) v (parsedFeedbacksData s)
    (showFeedbackAnalysis s) (activeFilter s) (searchQuery s) (page s)
    (totalItems s) (positiveCount s) (negativeCount s) (toasts s).

Definition set_parsedFeedbacksData (v : list Feedback.t) (s : State) : State :=
  mkState (feedbacks s) (originalFeedbacksData s) v
    (showFeedbackAnalysis s) (activeFilter s) (searchQuery s) (page s)
    (totalItems s) (positiveCount s) (negativeCount s) (toasts s).

Definition set_showFeedbackAnalysis (v : bool) (s : State) : State :=
  mkState (feedbacks s) (originalFeedbacksData s) (parsedFeedbacksData s)
    v (activeFilter s) (searchQuery s) (page s)
    (totalItems s) (positiveCount s) (negativeCount s) (toasts s).

Definition set_activeFilter (v : string) (s : State) : State :=
  mkState (feedbacks s) (originalFeedbacksData s) (parsedFeedbacksData s)
    (showFeedbackAnalysis s) v (searchQuery s) (page s)
    (totalItems s) (positiveCount s) (negativeCount s) (toasts s).

Definition set_searchQuery (v : string) (s : State) : State :=
  mkState (feedbacks s) (originalFeedbacksData s) (parsedFeedbacksData s)
    (showFeedbackAnalysis s) (activeFilter s) v (page s)
    (totalItems s) (positiveCount s) (negativeCount s) (toasts s).

Definition set_totalItems (v : nat) (s : State) : State :=
  mkState (feedbacks s) (originalFeedbacksData s) (parsedFeedbacksData s)
    (showFeedbackAnalysis s) (activeFilter s) (searchQuery s) (page s)
    v (positiveCount s) (negativeCount s) (toasts s).

Definition set_positiveCount (v : nat) (s : State) : State :=
  mkState (feedbacks s) (originalFeedbacksData s) (parsedFeedbacksData s)
    (showFeedbackAnalysis s) (activeFilter s) (searchQuery s) (page s)
    (totalItems s) v (negativeCount s) (toasts s).

Definition set_negativeCount (v : nat) (s : State) : State :=
  mkState (feedbacks s) (originalFeedbacksData s) (parsedFeedbacksData s)
    (showFeedbackAnalysis s) (activeFilter s) (searchQuery s) (page s)
    (totalItems s) (positiveCount s) v (toasts s).

(** [toast.error], [toast.success], [toast.info]: one more notification. *)
Definition toast (t : Toast) (s : State) : State :=
  mkState (feedbacks s) (originalFeedbacksData s) (parsedFeedbacksData s)
    (showFeedbackAnalysis s) (activeFilter s) (searchQuery s) (page s)
    (totalItems s) (positiveCount s) (negativeCount s) (toasts s ++ [t])%list.

(* ------------------------------------------------------------------------- *)
(** ** Reading a record                                                       *)
(* ------------------------------------------------------------------------- *)

(** [item.data?.rating] *)
Definition ratingOf (item : Feedback.t) : option Z :=
  match Feedback.data item with
  | Some d => Data.rating d
  | None => None
  end.

(** [rating > 0] and [rating < 0]; both are false on [undefined]. *)
Definition gt0 (rating : option Z) : bool :=
  match rating with
  | Some z => (0 <? z)%Z
  | None => false
  end.

Definition lt0 (rating : option Z) : bool :=
  match rating with
  | Some z => (z <? 0)%Z
  | None => false
  end.

(** [item.snapshot?.chat] *)
Definition chatOf (item : Feedback.t) : option Chat.t :=
  match Feedback.snapshot item with
  | Some snap => Snapshot.chat snap
  | None => None
  end.

(** [item.snapshot?.chat?.title] *)
Definition titleOf (item : Feedback.t) : option string :=
  match chatOf item with
  | Some c => Chat.title c
  | None => None
  end.

(** [item.snapshot?.chat?.chat?.messages], [None] unless it is an array. *)
Definition messagesOf (item : Feedback.t) : option (list Message.t) :=
  match chatOf item with
  | Some c =>
      match Chat.chat c with
      | Some body => ChatBody.messages body
      | None => None
      end
  | None => None
  end.

(* ------------------------------------------------------------------------- *)
(** ** The filter and search engine                                           *)
(* ------------------------------------------------------------------------- *)

(** The test of [messages.some] in the search: the message has content and
    its lower-cased content includes the lower-cased query. *)
Definition messageMatches (lowerQuery : string) (message : Message.t) : bool :=
  match Message.content message with
  | Some c => truthy c && includes (toLowerCase c) lowerQuery
  | None => false
  end.

(** The callback of the search filter. *)
Definition matchesQuery (lowerQuery : string) (item : Feedback.t) : bool :=
  if match titleOf item with
     | Some t => truthy t && includes (toLowerCase t) lowerQuery
     | None => false
     end
  then true
  else
    match messagesOf item with
    | Some messages => existsb (messageMatches lowerQuery) messages
    | None => false
    end.

(** "Apply rating filter" *)
Definition applyRatingFilter (filterType : string) (items : list Feedback.t)
  : list Feedback.t :=
  if String.eqb filterType "positive" then
    filter (fun item => gt0 (ratingOf item)) items
  else if String.eqb filterType "negative" then
    filter (fun item => lt0 (ratingOf item)) items
  else items.

(** "Apply search query if present" *)
Definition applySearch (query : string) (items : list Feedback.t)
  : list Feedback.t :=
  if truthy (trim query) then
    let lowerQuery := toLowerCase query in
    filter (matchesQuery lowerQuery) items
  else items.

Definition filterFeedbackItems (filterType query : string) (s : State) : State :=
  let s := set_activeFilter filterType s in
  let s := set_searchQuery query s in
  let filteredItems := originalFeedbacksData s in
  let filteredItems := applyRatingFilter filterType filteredItems in
  let filteredItems := applySearch query filteredItems in
  set_parsedFeedbacksData filteredItems s.

(** One turn of the [forEach] of [processFeedbackData]; what [debugStructure]
    and the other [console.log] calls print is not part of the state. *)
Definition countItem (s : State) (item : Feedback.t) : State :=
  let rating := ratingOf item in
  if gt0 rating then set_positiveCount (S (positiveCount s)) s
  else if lt0 rating then set_negativeCount (S (negativeCount s)) s
  else s.

Definition processFeedbackData (feedbackData : list Feedback.t) (s : State)
  : State :=
  let s := set_originalFeedbacksData feedbackData s in
  let s := set_totalItems (List.length feedbackData) s in
  let s := set_positiveCount 0 s in
  let s := set_negativeCount 0 s in
  let s := fold_left countItem feedbackData s in
  filterFeedbackItems "all" EmptyString s.

Definition toggleFeedbackAnalysis (s : State) : State :=
  let s := set_showFeedbackAnalysis (negb (showFeedbackAnalysis s)) s in
  if showFeedbackAnalysis s && (List.length (parsedFeedbacksData s) =? 0)%nat
  then processFeedbackData (feedbacks s) s
  else s.

(* ------------------------------------------------------------------------- *)
(** ** The handlers that await the evaluations API                            *)
(* ------------------------------------------------------------------------- *)

(** [deleteFeedbackHandler], resumed when [deleteFeedbackById] has settled;
    a fulfilled call carries the truthiness of the response. *)
Definition deleteFeedbackHandler (feedbackId : string)
    (settled : Settled bool) (s : State) : State :=
  let '(response, s) :=
    match settled with
    | Fulfilled r => (r, s)
    | Rejected err => (false, toast (ToastError err) s)
    end in
  if response then
    set_feedbacks
      (filter (fun f => negb (String.eqb (Feedback.id f) feedbackId))
         (feedbacks s)) s
  else s.

(** [refreshFeedbacksAnalysis] up to its [await]. *)
Definition refreshFeedbacksAnalysis_begin (s : State) : State :=
  toast (ToastInfo "Refreshing feedback analysis...") s.

(** [refreshFeedbacksAnalysis] from its [await] on; a fulfilled call carries
    the exported array, or [None] for a falsy answer. *)
Definition refreshFeedbacksAnalysis_resume
    (settled : Settled (option (list Feedback.t))) (s : State) : State :=
  match settled with
  | Fulfilled (Some refreshedFeedbacks) =>
      let s := processFeedbackData refreshedFeedbacks s in
      toast (ToastSuccess "Feedback analysis refreshed successfully!") s
  | Fulfilled None => s
  | Rejected err => toast (ToastError err) s
  end.

Definition refreshFeedbacksAnalysis
    (settled : Settled (option (list Feedback.t))) (s : State) : State :=
  refreshFeedbacksAnalysis_resume settled (refreshFeedbacksAnalysis_begin s).

(* ------------------------------------------------------------------------- *)
(** ** Sharing                                                                *)
(* ------------------------------------------------------------------------- *)

(** [const { snapshot, user, ...rest } = f; return rest]: the record without
    its [snapshot] and [user] properties. *)
Definition rest (f : Feedback.t) : Feedback.t :=
  Feedback.make (Feedback.id f) (Feedback.data f) None
    (Feedback.updated_at f) (Feedback.created_at f) (Feedback.browser_id f)
    None (Feedback.meta f).

Definition feedbacksToShare (s : State) : list Feedback.t :=
  map rest (feedbacks s).

Module MessageEvent.
Record t := make { origin : string; data : string }.
End MessageEvent.

Definition url : string := "https://openwebui.com".

(** The listener [shareHandler] installs: [Some payload] is the array it
    serialises and posts to the opened tab (retiring itself), [None] leaves
    the listener waiting. *)
Definition messageHandler (payload : list Feedback.t) (event : MessageEvent.t)
  : option (list Feedback.t) :=
  if negb (String.eqb (MessageEvent.origin event) url) then None
  else if String.eqb (MessageEvent.data event) "loaded" then Some payload
  else None.

(** [shareHandler]: the notification, and the payload captured for the
    listener. *)
Definition shareHandler (s : State) : State * list Feedback.t :=
  let s' := toast (ToastSuccess "Redirecting you to Open WebUI Community") s in
  (s', feedbacksToShare s).

(* ------------------------------------------------------------------------- *)
(** ** The conversation formatter                                             *)
(* ------------------------------------------------------------------------- *)

Definition dq : string := String (ascii_of_nat 34) EmptyString.
Definition nl : string := String (ascii_of_nat 10) EmptyString.

(** [n] tab characters, the indentation inside the template literal. *)
Fixpoint tabs (n : nat) : string :=
  match n with
  | O => EmptyString
  | S k => String (ascii_of_nat 9) (tabs k)
  end.

(** [<tag class="cls">] *)
Definition openTag (tag cls : string) : string :=
  "<" ++ tag ++ " class=" ++ dq ++ cls ++ dq ++ ">".

Definition noConversation : string :=
  openTag "p" "text-gray-500 dark:text-gray-400 text-sm"
  ++ "No conversation data available</p>".

Definition isUser (message : Message.t) : bool :=
  String.eqb (Message.role message) "user".

Definition className (message : Message.t) : string :=
  if isUser message
  then "bg-gray-50 dark:bg-gray-800 p-3 rounded-lg mb-2"
  else "bg-gray-100 dark:bg-gray-700 p-3 rounded-lg mb-2".

(** [message.annotation || message.feedbackId], as the conditions read it. *)
Definition hasFeedback (message : Message.t) : bool :=
  truthyOpt (Message.annotation message)
  || truthyOpt (Message.feedbackId message).

Definition feedbackHighlight (message : Message.t) : string :=
  if hasFeedback message
  then "border-2 border-red-500 dark:border-red-400"
  else EmptyString.

(** The text of [message.error.content] when [message.error &&
    message.error.content] holds. *)
Definition errorText (message : Message.t) : option string :=
  match Message.error message with
  | Some e =>
      match MessageError.content e with
      | Some c => if truthy c then Some c else None
      | None => None
      end
  | None => None
  end.

Definition errorBlock (text : string) : string :=
  openTag "div" "text-red-500 dark:text-red-400 text-xs mt-1" ++ text ++ "</div>".

(** [message.content || ''] *)
Definition contentOrEmpty (message : Message.t) : string :=
  match Message.content message with
  | Some c => c
  | None => EmptyString
  end.

Definition displayContent (message : Message.t) : string :=
  let displayContent := contentOrEmpty message in
  match errorText message with
  | Some text => displayContent ++ errorBlock text
  | None => displayContent
  end.

Definition roleLabel (message : Message.t) : string :=
  if isUser message then "User" else "Assistant".

Definition feedbackMarkerBlock : string :=
  openTag "div" "text-red-500 dark:text-red-400 text-xs font-medium mt-1"
  ++ "[This message received feedback]</div>".

Definition feedbackMarker (message : Message.t) : string :=
  if hasFeedback message then feedbackMarkerBlock else EmptyString.

(** The template literal, with the four values it interpolates. *)
Definition template (cls highlight label body marker : string) : string :=
  nl ++ tabs 4 ++ openTag "div" (cls ++ " " ++ highlight)
  ++ nl ++ tabs 5
  ++ openTag "div" "font-medium text-gray-700 dark:text-gray-300"
  ++ label ++ "</div>"
  ++ nl ++ tabs 5
  ++ openTag "div" "text-sm mt-1 text-gray-600 dark:text-gray-300"
  ++ body ++ "</div>"
  ++ nl ++ tabs 5 ++ marker
  ++ nl ++ tabs 4 ++ "</div>"
  ++ nl ++ tabs 3.

(** The callback of [messages.map]. *)
Definition renderMessage (message : Message.t) : string :=
  template (className message) (feedbackHighlight message)
    (roleLabel message) (displayContent message) (feedbackMarker message).

(** [formatConversation(messages)]; [None] is a value that is not an array. *)
Definition formatConversation (messages : option (list Message.t)) : string :=
  match messages with
  | None => noConversation
  | Some ms => join (map renderMessage ms)
  end.

(* ------------------------------------------------------------------------- *)
(** ** The panel as a transition system                                       *)
(* ------------------------------------------------------------------------- *)

(** What the markup wires to the handlers. *)
Inductive Event :=
| ClickAnalysis
| ClickFilter (filterType : string)
| InputSearch (value : string)
| DeleteSettled (feedbackId : string) (settled : Settled bool)
| RefreshSettled (settled : Settled (option (list Feedback.t))).

Definition step (s : State) (e : Event) : State :=
  match e with
  | ClickAnalysis => toggleFeedbackAnalysis s
  | ClickFilter filterType => filterFeedbackItems filterType (searchQuery s) s
  | InputSearch value => filterFeedbackItems (activeFilter s) value s
  | DeleteSettled feedbackId settled => deleteFeedbackHandler feedbackId settled s
  | RefreshSettled settled => refreshFeedbacksAnalysis settled s
  end.

Definition run (s : State) (es : list Event) : State := fold_left step es s.

(* ------------------------------------------------------------------------- *)
(** ** Sample records                                                         *)
(* ------------------------------------------------------------------------- *)

(** A record with the given id and [data.rating], and no snapshot. *)
Definition rated (i : string) (r : Z) : Feedback.t :=
  Feedback.make i
    (Some (Data.make (Some r) "model" None EmptyString EmptyString [] None))
    (Some (User.make "admin" "/user.png")) 0 None None None None.

(** A record with rating 1 and a snapshot of the given title and message
    texts. *)
Definition withChat (i title : string) (texts : list string) : Feedback.t :=
  Feedback.make i
    (Some (Data.make (Some 1%Z) "model" None EmptyString EmptyString [] None))
    (Some (User.make "admin" "/user.png")) 0 None None
    (Some (Snapshot.make (Some (Chat.make (Some title)
       (Some (ChatBody.make (Some
          (map (fun t => Message.make "assistant" (Some t) None None None)
             texts))))))))
    None.

(** A record without [data], and one whose [data] has no [rating]. *)
Definition noData (i : string) : Feedback.t :=
  Feedback.make i None None 0 None None None None.

Definition noRating (i : string) : Feedback.t :=
  Feedback.make i
    (Some (Data.make None "model" None EmptyString EmptyString [] None))
    None 0 None None None None.

(** Scenario A of the specification. *)
Definition scenarioA : list Feedback.t :=
  [rated "a" 1; rated "b" (-1); rated "c" 0].

(* ------------------------------------------------------------------------- *)
(** ** Facts about the string primitives                                      *)
(* ------------------------------------------------------------------------- *)

Section StringFacts.

Lemma append_empty_r (s : string) : s ++ EmptyString = s.
Proof. induction s as [|c r IH]; simpl; [reflexivity | now rewrite IH]. Qed.

Lemma append_assoc (a b c : string) : (a ++ b) ++ c = a ++ (b ++ c).
Proof. induction a as [|x r IH]; simpl; [reflexivity | now rewrite IH]. Qed.

Lemma append_eq_empty (a b : string) :
  a ++ b = EmptyString -> a = EmptyString /\ b = EmptyString.
Proof. destruct a; simpl; [auto | discriminate]. Qed.

Lemma prefix_spec (sub s : string) :
  String.prefix sub s = true <-> exists after, s = sub ++ after.
Proof.
  revert s; induction sub as [|c r IH]; intros s.
  - split; [intros _; now exists s | intros _; now destruct s].
  - destruct s as [|d t]; simpl.
    + split; [discriminate | intros [after H]; discriminate].
    + destruct (ascii_dec c d) as [->|Hne].
      * rewrite IH. split; intros [after H]; exists after.
        -- now rewrite H.
        -- now inversion H.
      * split; [discriminate | intros [after H]; inversion H; congruence].
Qed.

Lemma includes_spec (s sub : string) :
  includes s sub = true <-> substring_of sub s.
Proof.
  unfold substring_of; induction s as [|c r IH].
  - cbn [includes]. rewrite orb_false_r, prefix_spec. split.
    + intros [after H]. now exists EmptyString, after.
    + intros (before & after & H). symmetry in H.
      apply append_eq_empty in H as [-> H]. simpl in H.
      apply append_eq_empty in H as [-> ->]. now exists EmptyString.
  - cbn [includes]. rewrite orb_true_iff, IH, prefix_spec. split.
    + intros [[after H] | (before & after & H)].
      * now exists EmptyString, after.
      * exists (String c before), after. simpl. now rewrite H.
    + intros (before & after & H). destruct before as [|d before].
      * left. now exists after.
      * right. exists before, after. simpl in H. now inversion H.
Qed.

Lemma substring_of_empty (sub : string) :
  substring_of sub EmptyString -> sub = EmptyString.
Proof.
  intros (before & after & H). symmetry in H.
  apply append_eq_empty in H as [_ H]. now apply append_eq_empty in H.
Qed.

Lemma toLowerCase_empty (s : string) :
  toLowerCase s = EmptyString -> s = EmptyString.
Proof. destruct s; simpl; [reflexivity | discriminate]. Qed.

Lemma toLowerCase_length (s : string) :
  String.length (toLowerCase s) = String.length s.
Proof. induction s as [|c r IH]; simpl; [reflexivity | now rewrite IH]. Qed.

Lemma trimStart_blank (s : string) :
  truthy (trimStart s) = negb (blank s).
Proof.
  induction s as [|c r IH]; simpl; [reflexivity|].
  destruct (isWhiteSpace c); simpl; [exact IH | reflexivity].
Qed.

Lemma trimEnd_truthy (s : string) :
  truthy (trimEnd s) = negb (blank s).
Proof.
  induction s as [|c r IH]; simpl; [reflexivity|].
  destruct (trimEnd r) eqn:E; simpl in *.
  - destruct (isWhiteSpace c); simpl; [exact IH | reflexivity].
  - destruct (blank r); [discriminate|]. now rewrite andb_false_r.
Qed.

Lemma blank_trimStart (s : string) : blank (trimStart s) = blank s.
Proof.
  induction s as [|c r IH]; simpl; [reflexivity|].
  destruct (isWhiteSpace c) eqn:E; simpl; [exact IH | now rewrite E].
Qed.

(** [query.trim()] is truthy exactly when the query has a code unit that is
    not white space. *)
Lemma trim_truthy (s : string) : truthy (trim s) = negb (blank s).
Proof. unfold trim. now rewrite trimEnd_truthy, blank_trimStart. Qed.

Lemma blank_false_nonempty (s : string) : blank s = false -> s <> EmptyString.
Proof. intros H ->. discriminate. Qed.

Lemma truthy_true (s : string) : truthy s = true <-> s <> EmptyString.
Proof. destruct s; simpl; split; congruence. Qed.

Lemma truthyOpt_true (o : option string) :
  truthyOpt o = true <-> exists s, o = Some s /\ s <> EmptyString.
Proof.
  destruct o as [s|]; simpl.
  - rewrite truthy_true. split; [intros H; now exists s | intros (t & [= ->] & H); exact H].
  - split; [discriminate | intros (t & H & _); discriminate].
Qed.

Lemma join_app (a b : list string) : join (a ++ b)%list = join a ++ join b.
Proof.
  induction a as [|x r IH]; simpl; [reflexivity|].
  now rewrite IH, append_assoc.
Qed.

End StringFacts.

(* ------------------------------------------------------------------------- *)
(** ** Order-preserving sub-sequences                                         *)
(* ------------------------------------------------------------------------- *)

Section Subsequence.

Context {A : Type}.

(** [Subseq l l']: [l] is [l'] with some elements left out, order kept. *)
Inductive Subseq : list A -> list A -> Prop :=
| Subseq_done : Subseq [] []
| Subseq_take (x : A) (l l' : list A) : Subseq l l' -> Subseq (x :: l) (x :: l')
| Subseq_skip (x : A) (l l' : list A) : Subseq l l' -> Subseq l (x :: l').

Lemma Subseq_refl (l : list A) : Subseq l l.
Proof. induction l; constructor; assumption. Qed.

Lemma Subseq_filter (p : A -> bool) (l : list A) : Subseq (filter p l) l.
Proof.
  induction l as [|x l IH]; simpl; [constructor|].
  destruct (p x); constructor; exact IH.
Qed.

Lemma Subseq_In (l l' : list A) (x : A) : Subseq l l' -> In x l -> In x l'.
Proof.
  induction 1 as [|y l l' _ IH|y l l' _ IH]; simpl; intuition.
Qed.

Lemma Subseq_length (l l' : list A) : Subseq l l' -> List.length l <= List.length l'.
Proof. induction 1; simpl; lia. Qed.

Lemma filter_true (l : list A) : filter (fun _ => true) l = l.
Proof. induction l as [|x l IH]; simpl; [reflexivity | now rewrite IH]. Qed.

Lemma filter_filter_and (p q : A -> bool) (l : list A) :
  filter q (filter p l) = filter (fun x => p x && q x) l.
Proof.
  induction l as [|x l IH]; simpl; [reflexivity|].
  destruct (p x); simpl; [destruct (q x)|]; now rewrite IH.
Qed.

Lemma filter_weaken (p q : A -> bool) (l : list A) :
  (forall x, q x = true -> p x = true) ->
  Subseq (filter q l) (filter p l).
Proof.
  intros Hqp. induction l as [|x l IH]; simpl; [constructor|].
  destruct (q x) eqn:Eq.
  - rewrite (Hqp x Eq). now constructor.
  - destruct (p x); [constructor|]; exact IH.
Qed.

Lemma filter_length_split (p q : A -> bool) (l : list A) :
  (forall x, p x = true -> q x = false) ->
  List.length (filter p l) + List.length (filter q l)
  + List.length (filter (fun x => negb (p x) && negb (q x)) l)
  = List.length l.
Proof.
  intros Hpq. induction l as [|x l IH]; simpl; [reflexivity|].
  destruct (p x) eqn:Ep; [rewrite (Hpq x Ep)|destruct (q x)]; simpl; lia.
Qed.

End Subsequence.

(* ------------------------------------------------------------------------- *)
(** ** The two stages of the filter as predicates on one record               *)
(* ------------------------------------------------------------------------- *)

(** What the rating stage keeps under a filter type. *)
Definition passesRating (filterType : string) (item : Feedback.t) : bool :=
  if String.eqb filterType "positive" then gt0 (ratingOf item)
  else if String.eqb filterType "negative" then lt0 (ratingOf item)
  else true.

(** What the search stage keeps under a query. *)
Definition passesSearch (query : string) (item : Feedback.t) : bool :=
  if truthy (trim query) then matchesQuery (toLowerCase query) item else true.

(** The displayed set computed from a snapshot [R]. *)
Definition filtered (R : list Feedback.t) (filterType query : string)
  : list Feedback.t :=
  applySearch query (applyRatingFilter filterType R).

Definition ratingPositive (item : Feedback.t) : Prop :=
  exists z, ratingOf item = Some z /\ (0 < z)%Z.

Definition ratingNegative (item : Feedback.t) : Prop :=
  exists z, ratingOf item = Some z /\ (z < 0)%Z.

(** The lower-cased query occurs in the lower-cased transcript title. *)
Definition titleContains (query : string) (item : Feedback.t) : Prop :=
  exists t, titleOf item = Some t
            /\ substring_of (toLowerCase query) (toLowerCase t).

(** The lower-cased query occurs in the lower-cased content of a message of
    the record's snapshot. *)
Definition someMessageContains (query : string) (item : Feedback.t) : Prop :=
  exists ms m c,
    messagesOf item = Some ms /\ In m ms /\ Message.content m = Some c
    /\ substring_of (toLowerCase query) (toLowerCase c).

Section Engine.

Lemma applyRatingFilter_filter (filterType : string) (items : list Feedback.t) :
  applyRatingFilter filterType items = filter (passesRating filterType) items.
Proof.
  unfold applyRatingFilter, passesRating.
  destruct (String.eqb filterType "positive"); [reflexivity|].
  destruct (String.eqb filterType "negative"); [reflexivity|].
  symmetry; apply filter_true.
Qed.

Lemma applySearch_filter (query : string) (items : list Feedback.t) :
  applySearch query items = filter (passesSearch query) items.
Proof.
  unfold applySearch, passesSearch.
  destruct (truthy (trim query)); [reflexivity|].
  symmetry; apply filter_true.
Qed.

Lemma filtered_filter (R : list Feedback.t) (filterType query : string) :
  filtered R filterType query
  = filter (fun item => passesRating filterType item && passesSearch query item) R.
Proof.
  unfold filtered.
  now rewrite applySearch_filter, applyRatingFilter_filter, filter_filter_and.
Qed.

(** [filterFeedbackItems] writes three variables and nothing else. *)
Lemma filterFeedbackItems_state (filterType query : string) (s : State) :
  filterFeedbackItems filterType query s
  = mkState (feedbacks s) (originalFeedbacksData s)
      (filtered (originalFeedbacksData s) filterType query)
      (showFeedbackAnalysis s) filterType query (page s)
      (totalItems s) (positiveCount s) (negativeCount s) (toasts s).
Proof. reflexivity. Qed.

Lemma passesSearch_blank (query : string) (item : Feedback.t) :
  blank query = true -> passesSearch query item = true.
Proof.
  intros Hb. unfold passesSearch. now rewrite trim_truthy, Hb.
Qed.

Lemma passesSearch_nonblank (query : string) (item : Feedback.t) :
  blank query = false ->
  passesSearch query item = matchesQuery (toLowerCase query) item.
Proof.
  intros Hb. unfold passesSearch. now rewrite trim_truthy, Hb.
Qed.

Lemma gt0_spec (item : Feedback.t) :
  gt0 (ratingOf item) = true <-> ratingPositive item.
Proof.
  unfold ratingPositive. destruct (ratingOf item) as [z|]; simpl.
  - rewrite Z.ltb_lt. split; [intros H; now exists z | intros (y & [= ->] & H); exact H].
  - split; [discriminate | intros (y & H & _); discriminate].
Qed.

Lemma lt0_spec (item : Feedback.t) :
  lt0 (ratingOf item) = true <-> ratingNegative item.
Proof.
  unfold ratingNegative. destruct (ratingOf item) as [z|]; simpl.
  - rewrite Z.ltb_lt. split; [intros H; now exists z | intros (y & [= ->] & H); exact H].
  - split; [discriminate | intros (y & H & _); discriminate].
Qed.

Lemma gt0_lt0_exclusive (r : option Z) : gt0 r = true -> lt0 r = false.
Proof.
  destruct r as [z|]; simpl; [|discriminate].
  rewrite Z.ltb_lt, Z.ltb_ge. lia.
Qed.

(** A text (title or message content) passes the search test exactly when
    the lower-cased query occurs in its lower-cased form, provided the
    lower-cased query is not empty. *)
Lemma text_test (lowerQuery text : string) :
  lowerQuery <> EmptyString ->
  (truthy text && includes (toLowerCase text) lowerQuery = true
   <-> substring_of lowerQuery (toLowerCase text)).
Proof.
  intros Hq. rewrite andb_true_iff, includes_spec, truthy_true. split.
  - now intros [_ H].
  - intros H. split; [|exact H]. intros ->. simpl in H.
    now apply substring_of_empty in H.
Qed.

Lemma messageMatches_spec (lowerQuery : string) (m : Message.t) :
  lowerQuery <> EmptyString ->
  (messageMatches lowerQuery m = true
   <-> exists c, Message.content m = Some c
                 /\ substring_of lowerQuery (toLowerCase c)).
Proof.
  intros Hq. unfold messageMatches. destruct (Message.content m) as [c|].
  - rewrite (text_test _ _ Hq). split.
    + intros H. now exists c.
    + now intros (c' & [= ->] & H).
  - split; [discriminate | intros (c & H & _); discriminate].
Qed.

Lemma matchesQuery_spec (query : string) (item : Feedback.t) :
  blank query = false ->
  (matchesQuery (toLowerCase query) item = true
   <-> titleContains query item \/ someMessageContains query item).
Proof.
  intros Hb.
  assert (Hq : toLowerCase query <> EmptyString).
  { intros H. apply toLowerCase_empty in H. now apply blank_false_nonempty in Hb. }
  unfold matchesQuery, titleContains, someMessageContains.
  destruct (titleOf item) as [t|] eqn:Et.
  - destruct (truthy t && includes (toLowerCase t) (toLowerCase query)) eqn:E.
    + split; [intros _; left; exists t; split; [reflexivity|] | reflexivity].
      now apply (text_test _ _ Hq).
    + destruct (messagesOf item) as [ms|] eqn:Em.
      * rewrite existsb_exists. split.
        -- intros (m & Hin & Hm). right.
           apply (messageMatches_spec _ _ Hq) in Hm as (c & Hc & Hs).
           now exists ms, m, c.
        -- intros [(t' & [= <-] & Hs) | (ms' & m & c & [= <-] & Hin & Hc & Hs)].
           ++ apply (text_test _ _ Hq) in Hs. congruence.
           ++ exists m. split; [exact Hin|].
              apply (messageMatches_spec _ _ Hq). now exists c.
      * split; [discriminate|].
        intros [(t' & [= <-] & Hs) | (ms' & m & c & Hms & _)]; [|discriminate].
        apply (text_test _ _ Hq) in Hs. congruence.
  - destruct (messagesOf item) as [ms|] eqn:Em.
    + rewrite existsb_exists. split.
      * intros (m & Hin & Hm). right.
        apply (messageMatches_spec _ _ Hq) in Hm as (c & Hc & Hs).
        now exists ms, m, c.
      * intros [(t' & Ht & _) | (ms' & m & c & [= <-] & Hin & Hc & Hs)];
          [discriminate|].
        exists m. split; [exact Hin|].
        apply (messageMatches_spec _ _ Hq). now exists c.
    + split; [discriminate|].
      intros [(t' & Ht & _) | (ms' & m & c & Hms & _)]; discriminate.
Qed.

End Engine.

(* ------------------------------------------------------------------------- *)
(** ** What the handlers leave in the state                                   *)
(* ------------------------------------------------------------------------- *)

Definition isPositive (item : Feedback.t) : bool := gt0 (ratingOf item).
Definition isNegative (item : Feedback.t) : bool := lt0 (ratingOf item).

Section Handlers.

(** The [forEach] loop adds to the two counters the number of records with a
    rating above zero and below zero, and touches nothing else. *)
Lemma fold_countItem (R : list Feedback.t) (s : State) :
  fold_left countItem R s
  = mkState (feedbacks s) (originalFeedbacksData s) (parsedFeedbacksData s)
      (showFeedbackAnalysis s) (activeFilter s) (searchQuery s) (page s)
      (totalItems s)
      (positiveCount s + List.length (filter isPositive R))
      (negativeCount s + List.length (filter isNegative R))
      (toasts s).
Proof.
  revert s. induction R as [|item R IH]; intros s.
  - destruct s; simpl. now rewrite !Nat.add_0_r.
  - cbn [fold_left]. rewrite IH. unfold countItem, isPositive, isNegative.
    cbn [filter]. destruct (gt0 (ratingOf item)) eqn:Ep.
    + rewrite (gt0_lt0_exclusive _ Ep). simpl. f_equal; lia.
    + destruct (lt0 (ratingOf item)); simpl; f_equal; lia.
Qed.

Lemma processFeedbackData_state (R : list Feedback.t) (s : State) :
  processFeedbackData R s
  = mkState (feedbacks s) R R (showFeedbackAnalysis s) "all" EmptyString
      (page s) (List.length R)
      (List.length (filter isPositive R))
      (List.length (filter isNegative R))
      (toasts s).
Proof.
  unfold processFeedbackData. rewrite fold_countItem. reflexivity.
Qed.

Lemma stats_bound (R : list Feedback.t) :
  List.length (filter isPositive R) + List.length (filter isNegative R)
  <= List.length R.
Proof.
  pose proof (filter_length_split isPositive isNegative R) as H.
  unfold isPositive, isNegative in *.
  specialize (H (fun x => gt0_lt0_exclusive (ratingOf x))). lia.
Qed.

Lemma stats_equal_no_zero (R : list Feedback.t) :
  List.length (filter isPositive R) + List.length (filter isNegative R)
  = List.length R ->
  forall item, In item R -> ratingOf item <> Some 0%Z.
Proof.
  induction R as [|x R IH]; intros Heq item Hin; [destruct Hin|].
  pose proof (stats_bound R) as Hb.
  cbn [filter List.length] in Heq. unfold isPositive, isNegative in *.
  destruct Hin as [<-|Hin].
  - intros Hz. rewrite Hz in Heq. simpl in Heq. lia.
  - apply IH; [|exact Hin].
    destruct (gt0 (ratingOf x)) eqn:Ep.
    + rewrite (gt0_lt0_exclusive _ Ep) in Heq. simpl in Heq. lia.
    + destruct (lt0 (ratingOf x)); simpl in Heq; lia.
Qed.

(** The displayed set is always a sub-sequence of the snapshot. *)
Definition displayedWithinSnapshot (s : State) : Prop :=
  Subseq (parsedFeedbacksData s) (originalFeedbacksData s).

Lemma filtered_Subseq (R : list Feedback.t) (filterType query : string) :
  Subseq (filtered R filterType query) R.
Proof. rewrite filtered_filter. apply Subseq_filter. Qed.

Lemma step_keeps_displayedWithinSnapshot (s : State) (e : Event) :
  displayedWithinSnapshot s -> displayedWithinSnapshot (step s e).
Proof.
  unfold displayedWithinSnapshot. intros Hs.
  destruct e as [|ft|v|i [[|]|err]|[[R|]|err]]; cbn [step].
  - unfold toggleFeedbackAnalysis.
    destruct (_ && _); [|exact Hs].
    rewrite processFeedbackData_state. apply Subseq_refl.
  - rewrite filterFeedbackItems_state. apply filtered_Subseq.
  - rewrite filterFeedbackItems_state. apply filtered_Subseq.
  - exact Hs.
  - exact Hs.
  - exact Hs.
  - unfold refreshFeedbacksAnalysis, refreshFeedbacksAnalysis_resume.
    rewrite processFeedbackData_state. apply Subseq_refl.
  - exact Hs.
  - exact Hs.
Qed.

Lemma run_keeps_displayedWithinSnapshot (es : list Event) (s : State) :
  displayedWithinSnapshot s -> displayedWithinSnapshot (run s es).
Proof.
  revert s. induction es as [|e es IH]; intros s Hs; [exact Hs|].
  apply IH, step_keeps_displayedWithinSnapshot, Hs.
Qed.

Lemma reachable_displayedWithinSnapshot (fs : list Feedback.t) (es : list Event) :
  displayedWithinSnapshot (run (initialState fs) es).
Proof. apply run_keeps_displayedWithinSnapshot. constructor. Qed.

End Handlers.

(* ------------------------------------------------------------------------- *)
(** ** The filter and search engine: modes, search, statistics                *)
(* ------------------------------------------------------------------------- *)

(** C1, as stated, fails: with the query "x" the mode 'positive' does not
    return the record of rating 1 whose snapshot is absent, although the
    record is in the snapshot and its rating is above zero. *)
Lemma positive_mode_with_query_drops_rated_record :
  In (rated "a" 1) (originalFeedbacksData
                      (processFeedbackData [rated "a" 1] (initialState [])))
  /\ ratingPositive (rated "a" 1)
  /\ parsedFeedbacksData
       (filterFeedbackItems "positive" "x"
          (processFeedbackData [rated "a" 1] (initialState []))) = [].
Proof.
  split; [now left|]. split; [|reflexivity].
  exists 1%Z. split; [reflexivity | lia].
Qed.

(** C1 (amended): for every snapshot and every query, mode 'positive' returns
    exactly the records with [data.rating > 0] that pass the search for the
    query, mode 'negative' exactly those with [data.rating < 0] that pass it,
    and mode 'all' exactly those that pass it.  With an empty or
    whitespace-only query the three modes return exactly the records of
    rating above zero, those of rating below zero, and the whole snapshot, so
    a record of rating 0 appears only under 'all'.  The output is always an
    order-preserving sub-sequence of the snapshot. *)
Theorem filter_modes_spec (s : State) (query : string) :
  (forall item,
     In item (parsedFeedbacksData (filterFeedbackItems "positive" query s))
     <-> In item (originalFeedbacksData s) /\ ratingPositive item
         /\ passesSearch query item = true)
  /\ (forall item,
        In item (parsedFeedbacksData (filterFeedbackItems "negative" query s))
        <-> In item (originalFeedbacksData s) /\ ratingNegative item
            /\ passesSearch query item = true)
  /\ (forall item,
        In item (parsedFeedbacksData (filterFeedbackItems "all" query s))
        <-> In item (originalFeedbacksData s) /\ passesSearch query item = true)
  /\ (blank query = true ->
        parsedFeedbacksData (filterFeedbackItems "positive" query s)
        = filter isPositive (originalFeedbacksData s)
        /\ parsedFeedbacksData (filterFeedbackItems "negative" query s)
           = filter isNegative (originalFeedbacksData s)
        /\ parsedFeedbacksData (filterFeedbackItems "all" query s)
           = originalFeedbacksData s)
  /\ (forall item,
        ratingOf item = Some 0%Z ->
        ~ In item (parsedFeedbacksData (filterFeedbackItems "positive" query s))
        /\ ~ In item (parsedFeedbacksData (filterFeedbackItems "negative" query s)))
  /\ (forall filterType,
        Subseq (parsedFeedbacksData (filterFeedbackItems filterType query s))
          (originalFeedbacksData s)).
Proof.
  assert (Hpos : forall item,
     In item (parsedFeedbacksData (filterFeedbackItems "positive" query s))
     <-> In item (originalFeedbacksData s) /\ ratingPositive item
         /\ passesSearch query item = true).
  { intros item. rewrite filterFeedbackItems_state. cbn [parsedFeedbacksData].
    rewrite filtered_filter, filter_In, andb_true_iff.
    change (passesRating "positive" item) with (gt0 (ratingOf item)).
    now rewrite gt0_spec. }
  assert (Hneg : forall item,
     In item (parsedFeedbacksData (filterFeedbackItems "negative" query s))
     <-> In item (originalFeedbacksData s) /\ ratingNegative item
         /\ passesSearch query item = true).
  { intros item. rewrite filterFeedbackItems_state. cbn [parsedFeedbacksData].
    rewrite filtered_filter, filter_In, andb_true_iff.
    change (passesRating "negative" item) with (lt0 (ratingOf item)).
    now rewrite lt0_spec. }
  split; [exact Hpos|]. split; [exact Hneg|]. split; [|split; [|split]].
  - intros item. rewrite filterFeedbackItems_state. cbn [parsedFeedbacksData].
    rewrite filtered_filter, filter_In.
    change (passesRating "all" item) with true. now rewrite andb_true_l.
  - intros Hb. rewrite !filterFeedbackItems_state. cbn [parsedFeedbacksData].
    unfold filtered, applySearch. rewrite trim_truthy, Hb. cbn [negb].
    repeat split; reflexivity.
  - intros item Hz. split; intros Hin.
    + apply Hpos in Hin as (_ & (z & Hr & Hlt) & _). rewrite Hz in Hr.
      injection Hr as <-. lia.
    + apply Hneg in Hin as (_ & (z & Hr & Hlt) & _). rewrite Hz in Hr.
      injection Hr as <-. lia.
  - intros filterType. rewrite filterFeedbackItems_state.
    apply filtered_Subseq.
Qed.

(** C2: for every record and every query that is not empty or
    whitespace-only, the record passes the search iff the lower-cased query
    is a substring of the lower-cased transcript title or of the lower-cased
    content of at least one message of the snapshot; an empty or
    whitespace-only query matches every record.  The search stage of
    [filterFeedbackItems] keeps exactly the records that pass. *)
Theorem search_matches_title_or_message (query : string) (item : Feedback.t) :
  (blank query = false ->
     (passesSearch query item = true
      <-> titleContains query item \/ someMessageContains query item))
  /\ (blank query = true -> passesSearch query item = true)
  /\ (forall (s : State) (filterType : string),
        In item (parsedFeedbacksData (filterFeedbackItems filterType query s))
        <-> In item (applyRatingFilter filterType (originalFeedbacksData s))
            /\ passesSearch query item = true).
Proof.
  split; [|split].
  - intros Hb. rewrite (passesSearch_nonblank _ _ Hb).
    now apply matchesQuery_spec.
  - apply passesSearch_blank.
  - intros s filterType. rewrite filterFeedbackItems_state.
    cbn [parsedFeedbacksData]. unfold filtered.
    now rewrite applySearch_filter, filter_In.
Qed.

(** Scenario E: the query "hello" matches a record titled "Hello World", and
    a record whose title does not match but one of whose messages reads
    "say hello there"; it does not match a record with neither. *)
Example scenario_E :
  parsedFeedbacksData
    (filterFeedbackItems "all" "hello"
       (processFeedbackData
          [withChat "1" "Hello World" [];
           withChat "2" "Weather" ["first"; "say hello there"];
           withChat "3" "Weather" ["goodbye"];
           rated "4" 1]
          (initialState [])))
  = [withChat "1" "Hello World" [];
     withChat "2" "Weather" ["first"; "say hello there"]].
Proof. reflexivity. Qed.

(** C3: processing a snapshot computes the three summary numbers over the
    whole snapshot: [totalItems] is the number of records, [positiveCount]
    the number with [data.rating > 0], [negativeCount] the number with
    [data.rating < 0]; their sum is at most [totalItems], and equals it only
    when no record has rating exactly 0; filtering afterwards leaves the
    three numbers as they are; on scenario A they are 3, 1 and 1. *)
Theorem processFeedbackData_stats (R : list Feedback.t) (s : State) :
  originalFeedbacksData (processFeedbackData R s) = R
  /\ totalItems (processFeedbackData R s) = List.length R
  /\ positiveCount (processFeedbackData R s) = List.length (filter isPositive R)
  /\ negativeCount (processFeedbackData R s) = List.length (filter isNegative R)
  /\ (forall item, isPositive item = true <-> ratingPositive item)
  /\ (forall item, isNegative item = true <-> ratingNegative item)
  /\ positiveCount (processFeedbackData R s)
     + negativeCount (processFeedbackData R s)
     <= totalItems (processFeedbackData R s)
  /\ (positiveCount (processFeedbackData R s)
      + negativeCount (processFeedbackData R s)
      = totalItems (processFeedbackData R s) ->
      forall item, In item R -> ratingOf item <> Some 0%Z)
  /\ (forall filterType query,
        let s' := filterFeedbackItems filterType query (processFeedbackData R s) in
        totalItems s' = List.length R
        /\ positiveCount s' = List.length (filter isPositive R)
        /\ negativeCount s' = List.length (filter isNegative R))
  /\ (totalItems (processFeedbackData scenarioA (initialState scenarioA)) = 3
      /\ positiveCount (processFeedbackData scenarioA (initialState scenarioA)) = 1
      /\ negativeCount (processFeedbackData scenarioA (initialState scenarioA)) = 1).
Proof.
  rewrite processFeedbackData_state. cbn [originalFeedbacksData totalItems
    positiveCount negativeCount].
  repeat match goal with |- _ /\ _ => split end; try reflexivity.
  - apply gt0_spec.
  - apply lt0_spec.
  - apply stats_bound.
  - apply stats_equal_no_zero.
  - intros filterType query. rewrite filterFeedbackItems_state.
    repeat split.
Qed.

(** C4: for every snapshot, mode and query, the result of filtering with the
    query is a sub-sequence of the result of filtering with the empty query;
    filtering leaves the snapshot untouched and computes the displayed set
    from the snapshot alone, so a filter applied after another filter gives
    what it gives when applied first. *)
Theorem search_narrows_mode_filter (s : State) (filterType query : string) :
  Subseq (parsedFeedbacksData (filterFeedbackItems filterType query s))
    (parsedFeedbacksData (filterFeedbackItems filterType EmptyString s))
  /\ (forall item,
        In item (parsedFeedbacksData (filterFeedbackItems filterType query s)) ->
        In item (parsedFeedbacksData (filterFeedbackItems filterType EmptyString s)))
  /\ originalFeedbacksData (filterFeedbackItems filterType query s)
     = originalFeedbacksData s
  /\ (forall filterType' query',
        parsedFeedbacksData
          (filterFeedbackItems filterType query
             (filterFeedbackItems filterType' query' s))
        = parsedFeedbacksData (filterFeedbackItems filterType query s)).
Proof.
  assert (H : Subseq (parsedFeedbacksData (filterFeedbackItems filterType query s))
    (parsedFeedbacksData (filterFeedbackItems filterType EmptyString s))).
  { rewrite !filterFeedbackItems_state. cbn [parsedFeedbacksData].
    unfold filtered. rewrite (applySearch_filter query).
    change (applySearch EmptyString ?l) with l. apply Subseq_filter. }
  split; [exact H|]. split; [|split].
  - intros item. now apply Subseq_In.
  - reflexivity.
  - reflexivity.
Qed.

(* ------------------------------------------------------------------------- *)
(** ** Refresh and toggle                                                     *)
(* ------------------------------------------------------------------------- *)

(** The panel opened on one record, then narrowed to mode 'positive' and the
    query "hello". *)
Definition narrowedPanel : State :=
  run (initialState [rated "a" 1])
    [ClickAnalysis; ClickFilter "positive"; InputSearch "hello"].

(** C5, as stated, fails: a refresh issued while mode 'positive' and the
    query "hello" are active ends with mode 'all' and the empty query, and
    displays the fetched record of rating -1, which the filter that was
    active would not display. *)
Lemma refresh_does_not_keep_active_filter :
  activeFilter narrowedPanel = "positive"
  /\ searchQuery narrowedPanel = "hello"
  /\ activeFilter
       (refreshFeedbacksAnalysis (Fulfilled (Some [rated "b" (-1)])) narrowedPanel)
     = "all"
  /\ searchQuery
       (refreshFeedbacksAnalysis (Fulfilled (Some [rated "b" (-1)])) narrowedPanel)
     = EmptyString
  /\ parsedFeedbacksData
       (refreshFeedbacksAnalysis (Fulfilled (Some [rated "b" (-1)])) narrowedPanel)
     = [rated "b" (-1)]
  /\ filtered [rated "b" (-1)] (activeFilter narrowedPanel)
       (searchQuery narrowedPanel) = [].
Proof. repeat split. Qed.

(** C5 (amended): after a successful refresh the analysis snapshot is
    replaced wholesale by the fetched export, the summary statistics are
    recomputed over it, and the filter is reset: the active mode becomes
    'all' and the query empty, so the displayed set is the whole new
    snapshot.  The record set of the table and the visibility of the panel
    are unchanged, and the user is told of the start and of the success. *)
Theorem refresh_replaces_snapshot_and_resets_filter
    (refreshedFeedbacks : list Feedback.t) (s : State) :
  let s' := refreshFeedbacksAnalysis (Fulfilled (Some refreshedFeedbacks)) s in
  originalFeedbacksData s' = refreshedFeedbacks
  /\ totalItems s' = List.length refreshedFeedbacks
  /\ positiveCount s' = List.length (filter isPositive refreshedFeedbacks)
  /\ negativeCount s' = List.length (filter isNegative refreshedFeedbacks)
  /\ activeFilter s' = "all"
  /\ searchQuery s' = EmptyString
  /\ parsedFeedbacksData s' = refreshedFeedbacks
  /\ feedbacks s' = feedbacks s
  /\ showFeedbackAnalysis s' = showFeedbackAnalysis s
  /\ toasts s'
     = (toasts s
        ++ [ToastInfo "Refreshing feedback analysis...";
            ToastSuccess "Feedback analysis refreshed successfully!"])%list.
Proof.
  unfold refreshFeedbacksAnalysis, refreshFeedbacksAnalysis_resume,
    refreshFeedbacksAnalysis_begin.
  rewrite processFeedbackData_state. cbn.
  repeat split. now rewrite <- app_assoc.
Qed.

(** Two records of rating 1 shown in the panel, the panel narrowed to mode
    'negative' (which displays nothing) and closed, and the first record
    deleted. *)
Definition closedEmptyView : State :=
  run (initialState [rated "a" 1; rated "b" 1])
    [ClickAnalysis; ClickFilter "negative"; ClickAnalysis;
     DeleteSettled "a" (Fulfilled true)].

(** C6, as stated, fails: the panel is hidden and its snapshot holds two
    records, yet opening it processes the record set again: the snapshot is
    reloaded and the active mode goes back from 'negative' to 'all'. *)
Lemma toggle_reprocesses_nonempty_snapshot :
  showFeedbackAnalysis closedEmptyView = false
  /\ originalFeedbacksData closedEmptyView = [rated "a" 1; rated "b" 1]
  /\ activeFilter closedEmptyView = "negative"
  /\ showFeedbackAnalysis (toggleFeedbackAnalysis closedEmptyView) = true
  /\ originalFeedbacksData (toggleFeedbackAnalysis closedEmptyView) = [rated "b" 1]
  /\ activeFilter (toggleFeedbackAnalysis closedEmptyView) = "all".
Proof. repeat split. Qed.

(** C6 (amended): the toggle flips the panel between Hidden and Visible.
    The Hidden -> Visible transition processes the record set again exactly
    when the displayed (filtered) set is empty, which in every reachable
    state includes the case of an empty snapshot; with a non-empty displayed
    set it changes only visibility.  The Visible -> Hidden transition changes
    only visibility: snapshot, displayed set, statistics and filter state
    are retained. *)
Theorem toggle_spec (s : State) :
  showFeedbackAnalysis (toggleFeedbackAnalysis s) = negb (showFeedbackAnalysis s)
  /\ (showFeedbackAnalysis s = true ->
        toggleFeedbackAnalysis s = set_showFeedbackAnalysis false s)
  /\ (showFeedbackAnalysis s = false -> parsedFeedbacksData s <> [] ->
        toggleFeedbackAnalysis s = set_showFeedbackAnalysis true s)
  /\ (showFeedbackAnalysis s = false -> parsedFeedbacksData s = [] ->
        toggleFeedbackAnalysis s
        = processFeedbackData (feedbacks s) (set_showFeedbackAnalysis true s))
  /\ (forall fs es,
        s = run (initialState fs) es ->
        originalFeedbacksData s = [] -> parsedFeedbacksData s = []).
Proof.
  unfold toggleFeedbackAnalysis.
  split; [|split; [|split; [|split]]].
  - destruct (_ && _); [rewrite processFeedbackData_state|]; reflexivity.
  - intros ->. reflexivity.
  - intros -> Hne. cbn. destruct (parsedFeedbacksData s); [congruence|reflexivity].
  - intros -> Hp. cbn [set_showFeedbackAnalysis showFeedbackAnalysis
      parsedFeedbacksData negb andb]. now rewrite Hp.
  - intros fs es -> He.
    pose proof (reachable_displayedWithinSnapshot fs es) as H.
    unfold displayedWithinSnapshot in H. rewrite He in H.
    now inversion H.
Qed.

(* ------------------------------------------------------------------------- *)
(** ** Delete                                                                 *)
(* ------------------------------------------------------------------------- *)

(** The test of the [filter] in [deleteFeedbackHandler]. *)
Definition keptByDelete (feedbackId : string) (f : Feedback.t) : bool :=
  negb (String.eqb (Feedback.id f) feedbackId).

Section Delete.

Lemma keptByDelete_true (feedbackId : string) (f : Feedback.t) :
  keptByDelete feedbackId f = true <-> Feedback.id f <> feedbackId.
Proof.
  unfold keptByDelete. rewrite negb_true_iff. apply String.eqb_neq.
Qed.

Lemma filter_keeps_all {A : Type} (p : A -> bool) (l : list A) :
  (forall x, In x l -> p x = true) -> filter p l = l.
Proof.
  induction l as [|x l IH]; intros H; simpl; [reflexivity|].
  rewrite (H x (or_introl eq_refl)), IH; [reflexivity|].
  intros y Hy. apply H. now right.
Qed.

(** With unique ids, filtering out an id removes the one record that has it
    and leaves the records before and after it as they are. *)
Lemma filter_out_unique_id (feedbackId : string) (before after : list Feedback.t)
    (f : Feedback.t) :
  Feedback.id f = feedbackId ->
  NoDup (map Feedback.id (before ++ f :: after)) ->
  filter (keptByDelete feedbackId) (before ++ f :: after) = (before ++ after)%list.
Proof.
  intros Hid Hnd. rewrite map_app in Hnd. cbn [map] in Hnd.
  apply NoDup_remove_2 in Hnd. rewrite <- map_app in Hnd.
  rewrite filter_app. cbn [filter].
  replace (keptByDelete feedbackId f) with false
    by (symmetry; unfold keptByDelete; rewrite Hid, String.eqb_refl; reflexivity).
  rewrite <- filter_app. apply filter_keeps_all.
  intros x Hx. apply keptByDelete_true. intros Hx'.
  apply Hnd. rewrite Hid, <- Hx'. now apply in_map.
Qed.

End Delete.

(** C7: delete is atomic on the local state.  When the deletion call fails,
    the state is the one before, with the error shown to the user and the
    record set unchanged.  When it succeeds, the record set loses exactly the
    records of that id (with unique ids: the one record that has it), every
    other record stays, in the same order, and nothing else changes.  A call
    that is fulfilled with a falsy answer changes nothing. *)
Theorem deleteFeedbackHandler_atomic (feedbackId : string) (s : State) :
  (forall err,
      deleteFeedbackHandler feedbackId (Rejected err) s = toast (ToastError err) s
      /\ feedbacks (deleteFeedbackHandler feedbackId (Rejected err) s) = feedbacks s
      /\ toasts (deleteFeedbackHandler feedbackId (Rejected err) s)
         = (toasts s ++ [ToastError err])%list)
  /\ deleteFeedbackHandler feedbackId (Fulfilled true) s
     = set_feedbacks (filter (keptByDelete feedbackId) (feedbacks s)) s
  /\ (forall f,
        In f (feedbacks (deleteFeedbackHandler feedbackId (Fulfilled true) s))
        <-> In f (feedbacks s) /\ Feedback.id f <> feedbackId)
  /\ Subseq (feedbacks (deleteFeedbackHandler feedbackId (Fulfilled true) s))
       (feedbacks s)
  /\ (forall before f after,
        feedbacks s = (before ++ f :: after)%list ->
        Feedback.id f = feedbackId ->
        NoDup (map Feedback.id (feedbacks s)) ->
        feedbacks (deleteFeedbackHandler feedbackId (Fulfilled true) s)
        = (before ++ after)%list)
  /\ ((forall f, In f (feedbacks s) -> Feedback.id f <> feedbackId) ->
        feedbacks (deleteFeedbackHandler feedbackId (Fulfilled true) s)
        = feedbacks s)
  /\ deleteFeedbackHandler feedbackId (Fulfilled false) s = s.
Proof.
  split; [|split; [|split; [|split; [|split; [|split]]]]].
  - intros err. repeat split.
  - reflexivity.
  - intros f. cbn. change (fun f0 => negb (String.eqb (Feedback.id f0) feedbackId))
      with (keptByDelete feedbackId).
    now rewrite filter_In, keptByDelete_true.
  - cbn. apply Subseq_filter.
  - intros before f after Hs Hid Hnd. cbn. rewrite Hs in *.
    now apply filter_out_unique_id.
  - intros Hno. cbn. apply filter_keeps_all.
    intros x Hx. apply keptByDelete_true, Hno, Hx.
  - reflexivity.
Qed.

(* ------------------------------------------------------------------------- *)
(** ** Share                                                                  *)
(* ------------------------------------------------------------------------- *)

(** Two records agree on every property but [snapshot] and [user]. *)
Definition samePublic (f g : Feedback.t) : Prop :=
  Feedback.id f = Feedback.id g
  /\ Feedback.data f = Feedback.data g
  /\ Feedback.updated_at f = Feedback.updated_at g
  /\ Feedback.created_at f = Feedback.created_at g
  /\ Feedback.browser_id f = Feedback.browser_id g
  /\ Feedback.meta f = Feedback.meta g.

Section Share.

Lemma samePublic_rest (f : Feedback.t) : samePublic f (rest f).
Proof. repeat split. Qed.

Lemma rest_samePublic (f g : Feedback.t) : samePublic f g -> rest f = rest g.
Proof.
  intros (Hi & Hd & Hu & Hc & Hb & Hm). unfold rest.
  now rewrite Hi, Hd, Hu, Hc, Hb, Hm.
Qed.

Lemma map_rest_samePublic (l l' : list Feedback.t) :
  Forall2 samePublic l l' -> map rest l = map rest l'.
Proof.
  induction 1 as [|f g l l' Hfg _ IH]; simpl; [reflexivity|].
  now rewrite (rest_samePublic f g Hfg), IH.
Qed.

Lemma Forall2_samePublic_map_rest (l : list Feedback.t) :
  Forall2 samePublic l (map rest l).
Proof.
  induction l as [|f l IH]; simpl; constructor; [apply samePublic_rest | exact IH].
Qed.

End Share.

(** C8: for every record set, every record of the payload prepared for
    sharing has no [snapshot] and no [user] property and keeps the other
    properties of the record it comes from (id, data, timestamps, browser id,
    meta), one payload record per record and in the same order; the listener
    posts this payload and nothing else, and only on the "loaded" message of
    the expected origin; two record sets that differ only in their
    [snapshot] and [user] properties give the same payload. *)
Theorem share_payload_strips_snapshot_and_user (s : State) :
  List.length (snd (shareHandler s)) = List.length (feedbacks s)
  /\ Forall2 samePublic (feedbacks s) (snd (shareHandler s))
  /\ (forall r, In r (snd (shareHandler s)) ->
        Feedback.snapshot r = None /\ Feedback.user r = None)
  /\ (forall event posted,
        messageHandler (snd (shareHandler s)) event = Some posted ->
        posted = snd (shareHandler s)
        /\ MessageEvent.origin event = url
        /\ MessageEvent.data event = "loaded")
  /\ (forall s2,
        Forall2 samePublic (feedbacks s) (feedbacks s2) ->
        snd (shareHandler s2) = snd (shareHandler s)).
Proof.
  cbn [shareHandler snd]. unfold feedbacksToShare.
  split; [|split; [|split; [|split]]].
  - apply length_map.
  - apply Forall2_samePublic_map_rest.
  - intros r Hin. apply in_map_iff in Hin as (f & <- & _). now split.
  - intros event posted. unfold messageHandler.
    destruct (String.eqb (MessageEvent.origin event) url) eqn:Eo; [|discriminate].
    destruct (String.eqb (MessageEvent.data event) "loaded") eqn:Ed; [|discriminate].
    cbn [negb]. intros [= <-]. apply String.eqb_eq in Eo, Ed. now repeat split.
  - intros s2 H. symmetry. now apply map_rest_samePublic.
Qed.

(** Two record sets that differ in their transcripts and user identities
    only are shared as the same payload. *)
Lemma share_payload_example :
  snd (shareHandler (initialState [withChat "1" "Secret title" ["private"]]))
  = snd (shareHandler (initialState [rest (rated "1" 1)])).
Proof.
  apply (share_payload_strips_snapshot_and_user
           (initialState [rest (rated "1" 1)])).
  repeat constructor.
Defined.

(* ------------------------------------------------------------------------- *)
(** ** The conversation formatter                                             *)
(* ------------------------------------------------------------------------- *)

(** The message carries an annotation or a feedback linkage: one of the two
    properties is present and is not the empty string. *)
Definition carriesFeedback (m : Message.t) : Prop :=
  (exists a, Message.annotation m = Some a /\ a <> EmptyString)
  \/ (exists i, Message.feedbackId m = Some i /\ i <> EmptyString).

(** The message has an error text: an [error] with a non-empty [content]. *)
Definition hasErrorText (m : Message.t) (text : string) : Prop :=
  exists e, Message.error m = Some e
            /\ MessageError.content e = Some text /\ text <> EmptyString.

Section Formatter.

Lemma hasFeedback_spec (m : Message.t) :
  hasFeedback m = true <-> carriesFeedback m.
Proof.
  unfold hasFeedback, carriesFeedback.
  now rewrite orb_true_iff, !truthyOpt_true.
Qed.

Lemma errorText_spec (m : Message.t) (text : string) :
  errorText m = Some text <-> hasErrorText m text.
Proof.
  unfold errorText, hasErrorText. destruct (Message.error m) as [e|].
  - destruct (MessageError.content e) as [c|] eqn:Ec.
    + destruct c as [|a c]; simpl.
      * split; [discriminate|]. intros (e' & [= <-] & Hc & Hne).
        rewrite Ec in Hc. congruence.
      * split.
        -- intros [= <-]. exists e. repeat split; [exact Ec | discriminate].
        -- intros (e' & [= <-] & Hc & _). congruence.
    + split; [discriminate|]. intros (e' & [= <-] & Hc & _). congruence.
  - split; [discriminate|]. intros (e' & He & _). discriminate.
Qed.

Lemma formatConversation_cons (m : Message.t) (ms : list Message.t) :
  formatConversation (Some (m :: ms))
  = renderMessage m ++ formatConversation (Some ms).
Proof. reflexivity. Qed.

Lemma formatConversation_app (ms ms' : list Message.t) :
  formatConversation (Some (ms ++ ms')%list)
  = formatConversation (Some ms) ++ formatConversation (Some ms').
Proof. cbn [formatConversation]. now rewrite map_app, join_app. Qed.

End Formatter.

(* ------------------------------------------------------------------------- *)
(** ** Records without a rating                                               *)
(* ------------------------------------------------------------------------- *)

(** The record has no [data], or its [data] has no [rating]. *)
Definition ratingAbsent (item : Feedback.t) : Prop :=
  Feedback.data item = None
  \/ exists d, Feedback.data item = Some d /\ Data.rating d = None.

Section AbsentRating.

Lemma ratingAbsent_ratingOf (item : Feedback.t) :
  ratingAbsent item <-> ratingOf item = None.
Proof.
  unfold ratingAbsent, ratingOf. destruct (Feedback.data item) as [d|].
  - split.
    + intros [H | (d' & [= <-] & H)]; [discriminate | exact H].
    + intros H. right. now exists d.
  - split; [reflexivity | now left].
Qed.

Lemma In_filtered (R : list Feedback.t) (filterType query : string)
    (item : Feedback.t) :
  In item (filtered R filterType query)
  <-> In item R /\ passesRating filterType item = true
      /\ passesSearch query item = true.
Proof. now rewrite filtered_filter, filter_In, andb_true_iff. Qed.

End AbsentRating.

(** C10: on a record whose [data] or [data.rating] is absent the statistics
    and the filter are defined and treat it as unrated: the record adds one
    to [totalItems] and nothing to [positiveCount] or [negativeCount]; it is
    in the output of neither mode 'positive' nor mode 'negative', whatever
    the query; under mode 'all' it passes the rating stage, and is in the
    output exactly when it passes the search, so always with the default
    (empty) or a whitespace-only query. *)
Theorem absent_rating_is_unrated (item : Feedback.t)
    (before after : list Feedback.t) (s : State) (query : string) :
  ratingAbsent item ->
  totalItems (processFeedbackData (before ++ item :: after) s)
  = S (totalItems (processFeedbackData (before ++ after) s))
  /\ positiveCount (processFeedbackData (before ++ item :: after) s)
     = positiveCount (processFeedbackData (before ++ after) s)
  /\ negativeCount (processFeedbackData (before ++ item :: after) s)
     = negativeCount (processFeedbackData (before ++ after) s)
  /\ ~ In item (parsedFeedbacksData
                  (filterFeedbackItems "positive" query
                     (processFeedbackData (before ++ item :: after) s)))
  /\ ~ In item (parsedFeedbacksData
                  (filterFeedbackItems "negative" query
                     (processFeedbackData (before ++ item :: after) s)))
  /\ In item (applyRatingFilter "all" (before ++ item :: after))
  /\ (In item (parsedFeedbacksData
                 (filterFeedbackItems "all" query
                    (processFeedbackData (before ++ item :: after) s)))
      <-> passesSearch query item = true)
  /\ (blank query = true ->
        In item (parsedFeedbacksData
                   (filterFeedbackItems "all" query
                      (processFeedbackData (before ++ item :: after) s)))).
Proof.
  intros Habs. apply ratingAbsent_ratingOf in Habs.
  assert (Hin : In item (before ++ item :: after)%list)
    by (apply in_or_app; right; now left).
  rewrite !filterFeedbackItems_state, !processFeedbackData_state.
  cbn [totalItems positiveCount negativeCount parsedFeedbacksData
       originalFeedbacksData].
  rewrite !filter_app, !length_app. cbn [filter List.length].
  unfold isPositive at 2, isNegative at 2. rewrite Habs. cbn [gt0 lt0].
  split; [lia|]. split; [reflexivity|]. split; [reflexivity|].
  split; [|split; [|split; [|split]]].
  - intros H. apply In_filtered in H as (_ & H & _).
    change (passesRating "positive" item) with (gt0 (ratingOf item)) in H.
    rewrite Habs in H. discriminate.
  - intros H. apply In_filtered in H as (_ & H & _).
    change (passesRating "negative" item) with (lt0 (ratingOf item)) in H.
    rewrite Habs in H. discriminate.
  - exact Hin.
  - rewrite In_filtered. change (passesRating "all" item) with true.
    intuition.
  - intros Hb. apply In_filtered. repeat split; [exact Hin|].
    now apply passesSearch_blank.
Qed.

(** The theorem at a record without [data], after one rated record. *)
Lemma absent_rating_is_unrated_witness :
  ratingAbsent (noData "x")
  /\ totalItems (processFeedbackData ([rated "a" 1] ++ noData "x" :: [])
                   (initialState []))
     = S (totalItems (processFeedbackData ([rated "a" 1] ++ [])
                        (initialState []))).
Proof.
  assert (H : ratingAbsent (noData "x")) by (left; reflexivity).
  split; [exact H|].
  exact (proj1 (absent_rating_is_unrated (noData "x") [rated "a" 1] []
                  (initialState []) EmptyString H)).
Defined.

(* ------------------------------------------------------------------------- *)
(** ** The theorems at concrete inputs                                        *)
(* ------------------------------------------------------------------------- *)

(** With the whitespace-only query of two spaces, mode 'positive' on
    scenario A returns exactly the record of rating 1 (scenario B), and mode
    'all' returns the three records. *)
Lemma filter_modes_spec_witness :
  blank "  " = true
  /\ parsedFeedbacksData
       (filterFeedbackItems "positive" "  "
          (processFeedbackData scenarioA (initialState scenarioA)))
     = [rated "a" 1]
  /\ parsedFeedbacksData
       (filterFeedbackItems "all" "  "
          (processFeedbackData scenarioA (initialState scenarioA)))
     = scenarioA.
Proof.
  assert (Hb : blank "  " = true) by reflexivity.
  destruct (filter_modes_spec
              (processFeedbackData scenarioA (initialState scenarioA)) "  ")
    as (_ & _ & _ & H & _).
  destruct (H Hb) as (Hp & _ & Ha).
  split; [exact Hb|]. split; [exact Hp | exact Ha].
Defined.

(** The query "hello" is not blank, and a record passes it through a message
    reading "say hello there". *)
Lemma search_matches_title_or_message_witness :
  blank "hello" = false
  /\ passesSearch "hello" (withChat "2" "Weather" ["say hello there"]) = true.
Proof.
  assert (Hb : blank "hello" = false) by reflexivity.
  split; [exact Hb|].
  apply (proj1 (search_matches_title_or_message "hello"
                  (withChat "2" "Weather" ["say hello there"])) Hb).
  right.
  exists [Message.make "assistant" (Some "say hello there") None None None],
    (Message.make "assistant" (Some "say hello there") None None None),
    "say hello there".
  split; [reflexivity|]. split; [now left|]. split; [reflexivity|].
  now exists "say ", " there".
Defined.

(** On a snapshot of one won and one lost record the two counts add up to
    the total, and no record has rating 0. *)
Lemma processFeedbackData_stats_witness :
  positiveCount (processFeedbackData [rated "a" 1; rated "b" (-1)] (initialState []))
  + negativeCount (processFeedbackData [rated "a" 1; rated "b" (-1)] (initialState []))
  = totalItems (processFeedbackData [rated "a" 1; rated "b" (-1)] (initialState []))
  /\ ratingOf (rated "b" (-1)) <> Some 0%Z.
Proof.
  assert (He : positiveCount (processFeedbackData [rated "a" 1; rated "b" (-1)] (initialState []))
    + negativeCount (processFeedbackData [rated "a" 1; rated "b" (-1)] (initialState []))
    = totalItems (processFeedbackData [rated "a" 1; rated "b" (-1)] (initialState [])))
    by reflexivity.
  split; [exact He|].
  destruct (processFeedbackData_stats [rated "a" 1; rated "b" (-1)] (initialState []))
    as (_ & _ & _ & _ & _ & _ & _ & H & _).
  apply (H He). right. now left.
Defined.

(** Opening the closed panel whose displayed set is empty processes the
    record set again. *)
Lemma toggle_spec_witness :
  showFeedbackAnalysis closedEmptyView = false
  /\ parsedFeedbacksData closedEmptyView = []
  /\ toggleFeedbackAnalysis closedEmptyView
     = processFeedbackData (feedbacks closedEmptyView)
         (set_showFeedbackAnalysis true closedEmptyView).
Proof.
  assert (Hs : showFeedbackAnalysis closedEmptyView = false) by reflexivity.
  assert (Hp : parsedFeedbacksData closedEmptyView = []) by reflexivity.
  split; [exact Hs|]. split; [exact Hp|].
  destruct (toggle_spec closedEmptyView) as (_ & _ & _ & H & _).
  exact (H Hs Hp).
Defined.

(** Deleting "b" from three records with unique ids leaves the other two. *)
Lemma deleteFeedbackHandler_atomic_witness :
  NoDup (map Feedback.id [rated "a" 1; rated "b" 0; rated "c" (-1)])
  /\ feedbacks (deleteFeedbackHandler "b" (Fulfilled true)
                  (initialState [rated "a" 1; rated "b" 0; rated "c" (-1)]))
     = [rated "a" 1; rated "c" (-1)].
Proof.
  assert (Hnd : NoDup (map Feedback.id [rated "a" 1; rated "b" 0; rated "c" (-1)])).
  { repeat constructor; simpl; intuition discriminate. }
  split; [exact Hnd|].
  destruct (deleteFeedbackHandler_atomic "b"
              (initialState [rated "a" 1; rated "b" 0; rated "c" (-1)]))
    as (_ & _ & _ & _ & H & _).
  exact (H [rated "a" 1] (rated "b" 0) [rated "c" (-1)] eq_refl eq_refl Hnd).
Defined.


(* ========================================================================= *)
(** * The rest of the component                                               *)
(* ========================================================================= *)

From Stdlib Require Import NArith DecimalString DecimalN.

(* ------------------------------------------------------------------------- *)
(** ** Pagination of the table                                                *)
(* ------------------------------------------------------------------------- *)

(** How [slice] reads an index against a length: a negative index counts
    from the end, and both ends are clamped to the array. *)
Definition relativeIndex (len i : Z) : Z :=
  if (i <? 0)%Z then Z.max (len + i) 0 else Z.min i len.

(** [l.slice(start, end)] *)
Definition slice {A : Type} (start final : Z) (l : list A) : list A :=
  let len := Z.of_nat (List.length l) in
  let k := relativeIndex len start in
  let e := relativeIndex len final in
  firstn (Z.to_nat (e - k)) (skipn (Z.to_nat k) l).

(** [feedbacks.slice((page - 1) * 10, page * 10)] *)
Definition pageOf (page : nat) (fs : list Feedback.t) : list Feedback.t :=
  slice ((Z.of_nat page - 1) * 10) (Z.of_nat page * 10) fs.

(** The reactive [paginatedFeedbacks]. *)
Definition paginatedFeedbacks (s : State) : list Feedback.t :=
  pageOf (page s) (feedbacks s).

(* ------------------------------------------------------------------------- *)
(** ** Export                                                                 *)
(* ------------------------------------------------------------------------- *)

(** The file handed to [saveAs]: the array that is serialised into the blob,
    and the file name. *)
Module Download.
Record t := make { content : list Feedback.t; filename : string }.
End Download.

(** A non-negative integer in a template literal: its decimal digits. *)
Definition decimal (n : N) : string := NilEmpty.string_of_uint (N.to_uint n).

Definition exportFilename (now : N) : string :=
  "feedback-history-export-" ++ decimal now ++ ".json".

(** [exportHandler], resumed when [exportAllFeedbacks] has settled; [now] is
    what [Date.now()] returns. *)
Definition exportHandler (settled : Settled (option (list Feedback.t)))
    (now : N) (s : State) : State * option Download.t :=
  let '(_feedbacks, s) :=
    match settled with
    | Fulfilled r => (r, s)
    | Rejected err => (None, toast (ToastError err) s)
    end in
  match _feedbacks with
  | Some exported => (s, Some (Download.make exported (exportFilename now)))
  | None => (s, None)
  end.

(* ------------------------------------------------------------------------- *)
(** ** The message listeners of the share action                              *)
(* ------------------------------------------------------------------------- *)

(** One installed [messageHandler]: the tab [window.open] returned ([None]
    when no tab was opened) and the payload it captured. *)
Module Listener.
Record t := make { tab : option nat; payload : list Feedback.t }.
End Listener.

(** The listeners on [window], and what has been posted to which tab. *)
Record Window := mkWindow {
  listeners : list Listener.t;
  posted : list (nat * list Feedback.t)
}.

(** What one call of a listener does: nothing, post and retire, or fail on
    [tab.postMessage] before it retires. *)
Inductive Outcome :=
| Ignored
| Posted (tab : nat) (payload : list Feedback.t)
| Threw.

Definition invoke (l : Listener.t) (event : MessageEvent.t) : Outcome :=
  match messageHandler (Listener.payload l) event with
  | None => Ignored
  | Some p =>
      match Listener.tab l with
      | Some t => Posted t p
      | None => Threw
      end
  end.

Definition posts (l : Listener.t) (event : MessageEvent.t)
  : list (nat * list Feedback.t) :=
  match invoke l event with
  | Posted t p => [(t, p)]
  | _ => []
  end.

Definition retires (l : Listener.t) (event : MessageEvent.t) : bool :=
  match invoke l event with
  | Posted _ _ => true
  | _ => false
  end.

(** One [message] event reaches every installed listener, in the order of
    installation; the listeners that posted are gone afterwards. *)
Definition dispatchEvent (event : MessageEvent.t) (w : Window) : Window :=
  mkWindow
    (filter (fun l => negb (retires l event)) (listeners w))
    (posted w ++ flat_map (fun l => posts l event) (listeners w))%list.

Definition dispatchAll (events : list MessageEvent.t) (w : Window) : Window :=
  fold_left (fun w event => dispatchEvent event w) events w.

(** [shareHandler] with the listener it installs. *)
Definition shareHandler_listen (openedTab : option nat) (s : State) (w : Window)
  : State * Window :=
  let '(s', payload) := shareHandler s in
  (s', mkWindow (listeners w ++ [Listener.make openedTab payload])%list (posted w)).

(** The message that makes a listener post. *)
Definition isLoaded (event : MessageEvent.t) : bool :=
  String.eqb (MessageEvent.origin event) url
  && String.eqb (MessageEvent.data event) "loaded".

Definition hasTab (l : Listener.t) : bool :=
  match Listener.tab l with
  | Some _ => true
  | None => false
  end.

(* ------------------------------------------------------------------------- *)
(** ** What the markup shows of a record                                      *)
(* ------------------------------------------------------------------------- *)

(** [item.meta?.model_id] *)
Definition metaModelOf (item : Feedback.t) : option string :=
  match Feedback.meta item with
  | Some m => Meta.model_id m
  | None => None
  end.

(** [item.snapshot?.chat?.title || item.meta?.model_id || $i18n.t('Untitled Chat')],
    the heading of a card of the analysis panel. *)
Definition cardTitle (item : Feedback.t) : string :=
  match titleOf item with
  | Some t => if truthy t then t else
      match metaModelOf item with
      | Some m => if truthy m then m else "Untitled Chat"
      | None => "Untitled Chat"
      end
  | None =>
      match metaModelOf item with
      | Some m => if truthy m then m else "Untitled Chat"
      | None => "Untitled Chat"
      end
  end.

(** The rating text of a card: [item.data.rating > 0 ? 'Positive' :
    item.data.rating < 0 ? 'Negative' : 'Neutral']; [None] is the TypeError
    of reading [rating] of an absent [data]. *)
Definition cardRating (item : Feedback.t) : option string :=
  match Feedback.data item with
  | None => None
  | Some d =>
      Some (if gt0 (Data.rating d) then "Positive"
            else if lt0 (Data.rating d) then "Negative"
            else "Neutral")
  end.

(** The badge of a table row, chosen by [feedback.data.rating.toString()]
    being '1', '0' or '-1'; the outer [None] is the TypeError on an absent
    [data] or [rating], the inner one a row without badge. *)
Definition rowBadge (feedback : Feedback.t) : option (option string) :=
  match Feedback.data feedback with
  | None => None
  | Some d =>
      match Data.rating d with
      | None => None
      | Some r =>
          Some (if (r =? 1)%Z then Some "Won"
                else if (r =? 0)%Z then Some "Draw"
                else if (r =? -1)%Z then Some "Lost"
                else None)
      end
  end.

(* ------------------------------------------------------------------------- *)
(** ** Pagination: what a page holds                                          *)
(* ------------------------------------------------------------------------- *)

Section PaginationFacts.

Context {A : Type}.

Lemma firstn_plus (a b : nat) (l : list A) :
  firstn (a + b) l = (firstn a l ++ firstn b (skipn a l))%list.
Proof.
  revert l. induction a as [|a IH]; intros l; [reflexivity|].
  destruct l as [|x l]; simpl; [now rewrite firstn_nil | now rewrite IH].
Qed.

Lemma Subseq_nil_l (l : list A) : Subseq [] l.
Proof. induction l; constructor; assumption. Qed.

Lemma Subseq_firstn (n : nat) (l : list A) : Subseq (firstn n l) l.
Proof.
  revert l. induction n as [|n IH]; intros l; [apply Subseq_nil_l|].
  destruct l as [|x l]; simpl; constructor; apply IH.
Qed.

Lemma Subseq_skipn (n : nat) (l : list A) : Subseq (skipn n l) l.
Proof.
  revert l. induction n as [|n IH]; intros l; [apply Subseq_refl|].
  destruct l as [|x l]; simpl; constructor; apply IH.
Qed.

Lemma Subseq_trans (l1 l2 l3 : list A) :
  Subseq l1 l2 -> Subseq l2 l3 -> Subseq l1 l3.
Proof.
  intros H12 H23. revert l1 H12.
  induction H23 as [|x l2 l3 _ IH|x l2 l3 _ IH]; intros l1 H12.
  - exact H12.
  - inversion H12; subst; constructor; now apply IH.
  - constructor. now apply IH.
Qed.

Lemma slice_Subseq (start final : Z) (l : list A) : Subseq (slice start final l) l.
Proof.
  unfold slice. eapply Subseq_trans; [apply Subseq_firstn | apply Subseq_skipn].
Qed.

End PaginationFacts.

Section Pagination.

(** From page 1 on, a page is the ten records after the pages before it. *)
Lemma pageOf_firstn_skipn (p : nat) (fs : list Feedback.t) :
  1 <= p -> pageOf p fs = firstn 10 (skipn (10 * (p - 1)) fs).
Proof.
  intros Hp. unfold pageOf, slice, relativeIndex.
  set (len := List.length fs).
  replace ((Z.of_nat p - 1) * 10 <? 0)%Z with false
    by (symmetry; apply Z.ltb_ge; lia).
  replace (Z.of_nat p * 10 <? 0)%Z with false
    by (symmetry; apply Z.ltb_ge; lia).
  destruct (Nat.le_gt_cases len (10 * (p - 1))) as [Hbig|Hsmall].
  - rewrite Z.min_r by lia. rewrite Z.min_r by lia.
    rewrite Z.sub_diag, Nat2Z.id. cbn [Z.to_nat firstn].
    rewrite (skipn_all2 fs) by (fold len; lia). reflexivity.
  - rewrite (Z.min_l ((Z.of_nat p - 1) * 10)) by lia.
    replace (Z.to_nat ((Z.of_nat p - 1) * 10)) with (10 * (p - 1)) by lia.
    destruct (Nat.le_gt_cases (10 * p) len) as [Hfull|Hshort].
    + rewrite Z.min_l by lia. f_equal. lia.
    + rewrite Z.min_r by lia.
      assert (Hl : List.length (skipn (10 * (p - 1)) fs) = len - 10 * (p - 1))
        by apply length_skipn.
      rewrite !firstn_all2; [reflexivity | lia | lia].
Qed.

Lemma pages_concat (k : nat) (fs : list Feedback.t) :
  List.concat (map (fun p => pageOf p fs) (seq 1 k)) = firstn (10 * k) fs.
Proof.
  induction k as [|k IH]; [reflexivity|].
  rewrite seq_S, map_app, concat_app, IH. cbn [map List.concat plus].
  rewrite app_nil_r, pageOf_firstn_skipn by lia.
  replace (10 * (S k - 1)) with (10 * k) by lia.
  replace (10 * S k) with (10 * k + 10) by lia.
  now rewrite firstn_plus.
Qed.

End Pagination.

(** X1: whatever the page number, the table shows at most ten records, and
    they are consecutive records of the record set in their order; from page
    1 on, page [p] holds the ten records after the first [10 * (p - 1)], and
    page 0 holds nothing. *)
Theorem paginatedFeedbacks_page (s : State) :
  List.length (paginatedFeedbacks s) <= 10
  /\ Subseq (paginatedFeedbacks s) (feedbacks s)
  /\ (1 <= page s ->
        paginatedFeedbacks s = firstn 10 (skipn (10 * (page s - 1)) (feedbacks s)))
  /\ (page s = 0 -> paginatedFeedbacks s = []).
Proof.
  unfold paginatedFeedbacks.
  assert (H1 : 1 <= page s ->
    pageOf (page s) (feedbacks s)
    = firstn 10 (skipn (10 * (page s - 1)) (feedbacks s)))
    by apply pageOf_firstn_skipn.
  assert (H0 : page s = 0 -> pageOf (page s) (feedbacks s) = []).
  { intros ->. unfold pageOf, slice, relativeIndex. cbn [Z.of_nat].
    replace (Z.to_nat _) with 0 by (cbn; lia). reflexivity. }
  split; [|split; [apply slice_Subseq | split; [exact H1 | exact H0]]].
  destruct (page s) as [|p] eqn:Ep.
  - rewrite H0 by reflexivity. simpl. lia.
  - rewrite H1 by lia. rewrite length_firstn. lia.
Qed.

(** Page 2 of twelve records holds the last two. *)
Lemma paginatedFeedbacks_page_witness :
  1 <= 2
  /\ pageOf 2 (map (fun n => rated (decimal (N.of_nat n)) 1) (seq 0 12))
     = [rated "10" 1; rated "11" 1].
Proof.
  assert (H : 1 <= 2) by lia. split; [exact H|].
  destruct (paginatedFeedbacks_page
              (mkState (map (fun n => rated (decimal (N.of_nat n)) 1) (seq 0 12))
                 [] [] false "all" EmptyString 2 0 0 0 []))
    as (_ & _ & Hp & _).
  exact (Hp H).
Defined.

(** X2: the pages 1 to [k] put one after the other give back the record set,
    provided [k] pages of ten are enough to hold it: every record is on
    exactly one page, in its place. *)
Theorem pages_partition_feedbacks (k : nat) (fs : list Feedback.t) :
  List.length fs <= 10 * k ->
  List.concat (map (fun p => pageOf p fs) (seq 1 k)) = fs.
Proof.
  intros Hk. rewrite pages_concat. now apply firstn_all2.
Qed.

Lemma pages_partition_feedbacks_witness :
  List.length (map (fun n => rated (decimal (N.of_nat n)) 1) (seq 0 12)) <= 10 * 2
  /\ (pageOf 1 (map (fun n => rated (decimal (N.of_nat n)) 1) (seq 0 12))
      ++ pageOf 2 (map (fun n => rated (decimal (N.of_nat n)) 1) (seq 0 12)))%list
     = map (fun n => rated (decimal (N.of_nat n)) 1) (seq 0 12).
Proof.
  assert (H : List.length (map (fun n => rated (decimal (N.of_nat n)) 1) (seq 0 12))
              <= 10 * 2) by (vm_compute; lia).
  split; [exact H|].
  pose proof (pages_partition_feedbacks 2 _ H) as E.
  cbn [seq map List.concat] in E. rewrite app_nil_r in E. exact E.
Defined.

(* ------------------------------------------------------------------------- *)
(** ** Delete: composition, and the page it leaves                            *)
(* ------------------------------------------------------------------------- *)

Section DeleteFacts.

(** Filtering a record set keeps its ids unique. *)
Lemma unique_ids_filter (keep : Feedback.t -> bool) (fs : list Feedback.t) :
  NoDup (map Feedback.id fs) -> NoDup (map Feedback.id (filter keep fs)).
Proof.
  intros Hnd. induction fs as [|f fs IH]; [constructor|].
  cbn [map] in Hnd. inversion Hnd as [|i ids Hfresh Hrest]; subst.
  cbn [filter]. destruct (keep f); [|now apply IH].
  cbn [map]. constructor; [|now apply IH].
  intros Hin. apply Hfresh. apply in_map_iff in Hin as (g & Hg & Hin).
  apply filter_In in Hin as [Hin _]. rewrite <- Hg. now apply in_map.
Qed.

Lemma filter_comm {A : Type} (p q : A -> bool) (l : list A) :
  filter p (filter q l) = filter q (filter p l).
Proof.
  rewrite !filter_filter_and. apply filter_ext. intros x. apply andb_comm.
Qed.

Lemma filter_idem {A : Type} (p : A -> bool) (l : list A) :
  filter p (filter p l) = filter p l.
Proof.
  rewrite filter_filter_and. apply filter_ext. intros x. now destruct (p x).
Qed.

Lemma feedbacks_deleted (feedbackId : string) (s : State) :
  feedbacks (deleteFeedbackHandler feedbackId (Fulfilled true) s)
  = filter (keptByDelete feedbackId) (feedbacks s).
Proof. reflexivity. Qed.

Lemma feedbacks_after_delete (feedbackId : string) (settled : Settled bool)
    (s : State) :
  feedbacks (deleteFeedbackHandler feedbackId settled s) = feedbacks s
  \/ feedbacks (deleteFeedbackHandler feedbackId settled s)
     = filter (keptByDelete feedbackId) (feedbacks s).
Proof. destruct settled as [[|]|err]; [right | left | left]; reflexivity. Qed.

End DeleteFacts.

(** X3: delete keeps the ids of the record set unique, however the call
    settles; and when the ids are unique and a record has the deleted id, a
    successful delete makes the record set exactly one record shorter. *)
Theorem delete_keeps_ids_unique (feedbackId : string) (settled : Settled bool)
    (s : State) :
  NoDup (map Feedback.id (feedbacks s)) ->
  NoDup (map Feedback.id (feedbacks (deleteFeedbackHandler feedbackId settled s)))
  /\ ((exists f, In f (feedbacks s) /\ Feedback.id f = feedbackId) ->
        S (List.length (feedbacks
                          (deleteFeedbackHandler feedbackId (Fulfilled true) s)))
        = List.length (feedbacks s)).
Proof.
  intros Hnd. split.
  - destruct (feedbacks_after_delete feedbackId settled s) as [-> | ->];
      [exact Hnd | now apply unique_ids_filter].
  - intros (f & Hin & Hid). apply in_split in Hin as (before & after & Hs).
    rewrite feedbacks_deleted, Hs in *.
    rewrite (filter_out_unique_id feedbackId before after f Hid Hnd).
    rewrite !length_app. simpl. lia.
Qed.

Lemma delete_keeps_ids_unique_witness :
  NoDup (map Feedback.id [rated "a" 1; rated "b" 0; rated "c" (-1)])
  /\ NoDup (map Feedback.id
              (feedbacks (deleteFeedbackHandler "b" (Fulfilled true)
                            (initialState [rated "a" 1; rated "b" 0; rated "c" (-1)])))).
Proof.
  assert (Hnd : NoDup (map Feedback.id [rated "a" 1; rated "b" 0; rated "c" (-1)])).
  { repeat constructor; simpl; intuition discriminate. }
  split; [exact Hnd|].
  exact (proj1 (delete_keeps_ids_unique "b" (Fulfilled true)
                  (initialState [rated "a" 1; rated "b" 0; rated "c" (-1)]) Hnd)).
Defined.

(** X4: successful deletes commute and repeat harmlessly: deleting two ids
    in either order leaves the same record set, and deleting an id a second
    time changes nothing. *)
Theorem delete_commutes_and_repeats (a b : string) (s : State) :
  feedbacks (deleteFeedbackHandler a (Fulfilled true)
               (deleteFeedbackHandler b (Fulfilled true) s))
  = feedbacks (deleteFeedbackHandler b (Fulfilled true)
                 (deleteFeedbackHandler a (Fulfilled true) s))
  /\ deleteFeedbackHandler a (Fulfilled true)
       (deleteFeedbackHandler a (Fulfilled true) s)
     = deleteFeedbackHandler a (Fulfilled true) s.
Proof.
  split.
  - rewrite !feedbacks_deleted. apply filter_comm.
  - destruct s. cbn. unfold set_feedbacks. cbn. f_equal.
    apply (filter_idem (keptByDelete a)).
Qed.

(** X5: delete leaves the page number as it is, so deleting the only record
    of the last page empties the table although records remain: when the
    page (2 or later) shows the one record that follows [10 * (page - 1)]
    others, a successful delete of that record leaves the others in the
    record set and nothing on the page. *)
Theorem delete_last_record_of_page_empties_page (s : State) (f : Feedback.t)
    (before : list Feedback.t) :
  2 <= page s ->
  feedbacks s = (before ++ [f])%list ->
  List.length before = 10 * (page s - 1) ->
  (forall g, In g before -> Feedback.id g <> Feedback.id f) ->
  paginatedFeedbacks s = [f]
  /\ feedbacks (deleteFeedbackHandler (Feedback.id f) (Fulfilled true) s) = before
  /\ before <> []
  /\ paginatedFeedbacks (deleteFeedbackHandler (Feedback.id f) (Fulfilled true) s)
     = [].
Proof.
  intros Hp Hs Hlen Hids.
  assert (Hdel : feedbacks (deleteFeedbackHandler (Feedback.id f) (Fulfilled true) s)
                 = before).
  { rewrite feedbacks_deleted, Hs, filter_app. cbn [filter].
    unfold keptByDelete at 2. rewrite String.eqb_refl. cbn [negb].
    rewrite app_nil_r. apply filter_keeps_all.
    intros g Hg. now apply keptByDelete_true, Hids. }
  split; [|split; [exact Hdel | split]].
  - unfold paginatedFeedbacks. rewrite pageOf_firstn_skipn by lia.
    rewrite Hs, skipn_app, <- Hlen, skipn_all, Nat.sub_diag. reflexivity.
  - intros ->. simpl in Hlen. lia.
  - unfold paginatedFeedbacks.
    replace (page (deleteFeedbackHandler (Feedback.id f) (Fulfilled true) s))
      with (page s) by reflexivity.
    rewrite Hdel, pageOf_firstn_skipn by lia.
    rewrite <- Hlen, skipn_all. reflexivity.
Qed.

(** Eleven records on page 2: the page shows the eleventh, and nothing once
    it is deleted. *)
Lemma delete_last_record_of_page_witness :
  2 <= 2
  /\ paginatedFeedbacks
       (deleteFeedbackHandler "10" (Fulfilled true)
          (mkState (map (fun n => rated (decimal (N.of_nat n)) 1) (seq 0 11))
             [] [] false "all" EmptyString 2 0 0 0 []))
     = [].
Proof.
  assert (Hp : 2 <= 2) by lia. split; [exact Hp|].
  refine (proj2 (proj2 (proj2
    (delete_last_record_of_page_empties_page
       (mkState (map (fun n => rated (decimal (N.of_nat n)) 1) (seq 0 11))
          [] [] false "all" EmptyString 2 0 0 0 [])
       (rated "10" 1)
       (map (fun n => rated (decimal (N.of_nat n)) 1) (seq 0 10))
       Hp eq_refl eq_refl _)))).
  intros g Hg. vm_compute in Hg.
  repeat (destruct Hg as [<- | Hg]; [discriminate|]). destruct Hg.
Defined.

(* ------------------------------------------------------------------------- *)
(** ** The panel: what every reachable state satisfies                        *)
(* ------------------------------------------------------------------------- *)

(** The displayed set is what the active mode and query select from the
    snapshot, and the three numbers count the snapshot. *)
Definition panelConsistent (s : State) : Prop :=
  parsedFeedbacksData s
  = filtered (originalFeedbacksData s) (activeFilter s) (searchQuery s)
  /\ totalItems s = List.length (originalFeedbacksData s)
  /\ positiveCount s = List.length (filter isPositive (originalFeedbacksData s))
  /\ negativeCount s = List.length (filter isNegative (originalFeedbacksData s)).

Section PanelInvariant.

Lemma processFeedbackData_consistent (R : list Feedback.t) (s : State) :
  panelConsistent (processFeedbackData R s).
Proof. rewrite processFeedbackData_state. repeat split. Qed.

Lemma step_keeps_panelConsistent (s : State) (e : Event) :
  panelConsistent s -> panelConsistent (step s e).
Proof.
  intros Hs. pose proof Hs as (Hp & Ht & Hpos & Hneg).
  destruct e as [|ft|v|i [[|]|err]|[[R|]|err]]; cbn [step].
  - unfold toggleFeedbackAnalysis. destruct (_ && _).
    + apply processFeedbackData_consistent.
    + exact Hs.
  - rewrite filterFeedbackItems_state. now repeat split.
  - rewrite filterFeedbackItems_state. now repeat split.
  - exact Hs.
  - exact Hs.
  - exact Hs.
  - unfold refreshFeedbacksAnalysis, refreshFeedbacksAnalysis_resume.
    rewrite processFeedbackData_state. repeat split.
  - exact Hs.
  - exact Hs.
Qed.

Lemma run_keeps_panelConsistent (es : list Event) (s : State) :
  panelConsistent s -> panelConsistent (run s es).
Proof.
  revert s. induction es as [|e es IH]; intros s Hs; [exact Hs|].
  apply IH, step_keeps_panelConsistent, Hs.
Qed.

End PanelInvariant.

(** X6: in every state the component reaches from its initial state, by any
    sequence of toggles, filter clicks, search input, deletes and refreshes
    settling either way, the displayed set is exactly what the active mode
    and the current query select from the snapshot, and [totalItems],
    [positiveCount], [negativeCount] are the counts of the snapshot; so the
    two counts never add up to more than [totalItems]. *)
Theorem reachable_panel_consistent (fs : list Feedback.t) (es : list Event) :
  panelConsistent (run (initialState fs) es)
  /\ positiveCount (run (initialState fs) es)
     + negativeCount (run (initialState fs) es)
     <= totalItems (run (initialState fs) es).
Proof.
  assert (H : panelConsistent (run (initialState fs) es)).
  { apply run_keeps_panelConsistent. repeat split. }
  split; [exact H|].
  destruct H as (_ & -> & -> & ->). apply stats_bound.
Qed.

(* ------------------------------------------------------------------------- *)
(** ** The filter: how mode and search compose                                *)
(* ------------------------------------------------------------------------- *)

(** X7: the rating stage and the search stage commute, and the result for a
    mode and a query is the intersection of the result for the mode alone
    and the result for the query alone. *)
Theorem rating_and_search_stages_commute (R : list Feedback.t)
    (filterType query : string) :
  applySearch query (applyRatingFilter filterType R)
  = applyRatingFilter filterType (applySearch query R)
  /\ (forall item,
        In item (filtered R filterType query)
        <-> In item (filtered R filterType EmptyString)
            /\ In item (filtered R "all" query)).
Proof.
  split.
  - rewrite !applySearch_filter, !applyRatingFilter_filter. apply filter_comm.
  - intros item. rewrite !In_filtered.
    change (passesSearch EmptyString item) with true.
    change (passesRating "all" item) with true. intuition.
Qed.

Section SearchFacts.

Lemma blank_app (a b : string) : blank (a ++ b) = blank a && blank b.
Proof.
  induction a as [|c r IH]; simpl; [reflexivity|].
  now rewrite IH, andb_assoc.
Qed.

Lemma substring_of_trans (a b c : string) :
  substring_of a b -> substring_of b c -> substring_of a c.
Proof.
  intros (x & y & ->) (u & v & ->). exists (u ++ x), (y ++ v).
  now rewrite !append_assoc.
Qed.

Lemma isWhiteSpace_lowerChar (c : ascii) :
  isWhiteSpace (lowerChar c) = isWhiteSpace c.
Proof.
  destruct c as [[] [] [] [] [] [] [] []]; reflexivity.
Qed.

Lemma blank_toLowerCase (s : string) : blank (toLowerCase s) = blank s.
Proof.
  induction s as [|c r IH]; simpl; [reflexivity|].
  now rewrite isWhiteSpace_lowerChar, IH.
Qed.

Lemma lowerChar_idem (c : ascii) : lowerChar (lowerChar c) = lowerChar c.
Proof.
  destruct c as [[] [] [] [] [] [] [] []]; reflexivity.
Qed.

Lemma toLowerCase_idem (s : string) :
  toLowerCase (toLowerCase s) = toLowerCase s.
Proof.
  induction s as [|c r IH]; simpl; [reflexivity|].
  now rewrite lowerChar_idem, IH.
Qed.

End SearchFacts.

(** X8: a query whose lower-case form contains the lower-case form of
    another never finds more than that other one: every record that passes
    the search for it passes the search for the other, so under every mode
    its result is a sub-sequence of the other's.  The containment is asked
    of the lower-case forms, the only form in which the search reads a
    query that is not blank. *)
Theorem longer_query_narrows (shorter longer : string) (R : list Feedback.t)
    (filterType : string) :
  substring_of (toLowerCase shorter) (toLowerCase longer) ->
  (forall item, passesSearch longer item = true -> passesSearch shorter item = true)
  /\ Subseq (filtered R filterType longer) (filtered R filterType shorter).
Proof.
  intros Hlow.
  assert (H : forall item,
            passesSearch longer item = true -> passesSearch shorter item = true).
  { intros item Hl. destruct (blank shorter) eqn:Es;
      [now apply passesSearch_blank|].
    assert (El : blank longer = false).
    { rewrite <- blank_toLowerCase. destruct Hlow as (x & y & ->).
      rewrite !blank_app, blank_toLowerCase, Es.
      now rewrite andb_false_r. }
    rewrite (passesSearch_nonblank _ _ Es).
    rewrite (passesSearch_nonblank _ _ El) in Hl.
    apply (matchesQuery_spec _ _ Es). apply (matchesQuery_spec _ _ El) in Hl.
    destruct Hl as [(t & Ht & Hs) | (ms & m & c & Hms & Hin & Hc & Hs)].
    - left. exists t. split; [exact Ht|]. eapply substring_of_trans; eassumption.
    - right. exists ms, m, c. repeat split; try assumption.
      eapply substring_of_trans; eassumption. }
  split; [exact H|].
  rewrite !filtered_filter. apply filter_weaken.
  intros item Hi. apply andb_true_iff in Hi as [Hr Hl].
  now rewrite Hr, (H item Hl).
Qed.

(** The lower-case form of "Hell" occurs in that of "HELLO", and a record
    titled "Hello World", found by "HELLO", is found by "Hell". *)
Lemma longer_query_narrows_witness :
  substring_of (toLowerCase "Hell") (toLowerCase "HELLO")
  /\ passesSearch "Hell" (withChat "1" "Hello World" []) = true.
Proof.
  assert (Hs : substring_of (toLowerCase "Hell") (toLowerCase "HELLO"))
    by (now exists EmptyString, "o").
  split; [exact Hs|].
  apply (proj1 (longer_query_narrows "Hell" "HELLO" [] "all" Hs)).
  reflexivity.
Defined.

(** X9: the search does not see the case of the query: two queries with the
    same lower-case form select the same records, under every mode. *)
Theorem search_ignores_query_case (q1 q2 : string) (R : list Feedback.t)
    (filterType : string) :
  toLowerCase q1 = toLowerCase q2 ->
  filtered R filterType q1 = filtered R filterType q2.
Proof.
  intros Hq. rewrite !filtered_filter. apply filter_ext. intros item.
  f_equal. unfold passesSearch. rewrite !trim_truthy.
  rewrite <- (blank_toLowerCase q1), <- (blank_toLowerCase q2), Hq.
  reflexivity.
Qed.

Lemma search_ignores_query_case_witness :
  toLowerCase "HeLLo" = toLowerCase "hello"
  /\ filtered [withChat "1" "Hello World" []; rated "2" 1] "all" "HeLLo"
     = filtered [withChat "1" "Hello World" []; rated "2" 1] "all" "hello".
Proof.
  assert (H : toLowerCase "HeLLo" = toLowerCase "hello") by reflexivity.
  split; [exact H|].
  exact (search_ignores_query_case "HeLLo" "hello"
           [withChat "1" "Hello World" []; rated "2" 1] "all" H).
Defined.

(** X10: a query that is not blank never finds a record without snapshot:
    the search reads the transcript title and the messages only, so the
    model id a card shows as its title when the snapshot is missing is not
    searched. *)
Theorem search_skips_records_without_snapshot (query : string)
    (item : Feedback.t) (R : list Feedback.t) (filterType : string) :
  blank query = false ->
  Feedback.snapshot item = None ->
  passesSearch query item = false
  /\ ~ In item (filtered R filterType query).
Proof.
  intros Hb Hsnap.
  assert (H : passesSearch query item = false).
  { rewrite (passesSearch_nonblank _ _ Hb).
    unfold matchesQuery, titleOf, messagesOf, chatOf. now rewrite Hsnap. }
  split; [exact H|].
  intros Hin. apply In_filtered in Hin as (_ & _ & Hp). congruence.
Qed.

(** A record shown under the title "gpt" taken from its [meta] is not found
    by the query "gpt". *)
Lemma search_skips_records_without_snapshot_witness :
  blank "gpt" = false
  /\ Feedback.snapshot
       (Feedback.make "1" None None 0 None None None
          (Some (Meta.make (Some "gpt") None))) = None
  /\ cardTitle (Feedback.make "1" None None 0 None None None
                  (Some (Meta.make (Some "gpt") None))) = "gpt"
  /\ passesSearch "gpt"
       (Feedback.make "1" None None 0 None None None
          (Some (Meta.make (Some "gpt") None))) = false.
Proof.
  assert (Hb : blank "gpt" = false) by reflexivity.
  split; [exact Hb|]. split; [reflexivity|]. split; [reflexivity|].
  exact (proj1 (search_skips_records_without_snapshot "gpt"
                  (Feedback.make "1" None None 0 None None None
                     (Some (Meta.make (Some "gpt") None)))
                  [] "all" Hb eq_refl)).
Defined.

(* ------------------------------------------------------------------------- *)
(** ** Toggle twice, and a refresh that fails                                 *)
(* ------------------------------------------------------------------------- *)

(** X11: toggling twice always restores the visibility and never touches the
    record set; when the displayed set is not empty it restores the whole
    state, so closing and reopening the panel keeps snapshot, displayed set,
    statistics, mode and query. *)
Theorem toggle_twice (s : State) :
  showFeedbackAnalysis (toggleFeedbackAnalysis (toggleFeedbackAnalysis s))
  = showFeedbackAnalysis s
  /\ feedbacks (toggleFeedbackAnalysis (toggleFeedbackAnalysis s)) = feedbacks s
  /\ (parsedFeedbacksData s <> [] ->
        toggleFeedbackAnalysis (toggleFeedbackAnalysis s) = s).
Proof.
  destruct s as [fs orig parsed show af sq pg ti pc nc ts].
  unfold toggleFeedbackAnalysis.
  cbn [set_showFeedbackAnalysis showFeedbackAnalysis parsedFeedbacksData
       feedbacks activeFilter searchQuery page totalItems positiveCount
       negativeCount toasts originalFeedbacksData].
  destruct show; cbn [negb andb].
  - destruct parsed as [|x parsed]; cbn [List.length Nat.eqb].
    + rewrite processFeedbackData_state. cbn. repeat split. congruence.
    + repeat split.
  - destruct parsed as [|x parsed]; cbn [List.length Nat.eqb].
    + rewrite processFeedbackData_state. cbn. repeat split. congruence.
    + repeat split.
Qed.

(** The panel opened on one record, closed and opened again. *)
Lemma toggle_twice_witness :
  parsedFeedbacksData (run (initialState [rated "a" 1]) [ClickAnalysis]) <> []
  /\ toggleFeedbackAnalysis
       (toggleFeedbackAnalysis (run (initialState [rated "a" 1]) [ClickAnalysis]))
     = run (initialState [rated "a" 1]) [ClickAnalysis].
Proof.
  assert (H : parsedFeedbacksData (run (initialState [rated "a" 1]) [ClickAnalysis])
              <> []) by discriminate.
  split; [exact H|].
  exact (proj2 (proj2 (toggle_twice
                         (run (initialState [rated "a" 1]) [ClickAnalysis]))) H).
Defined.

(** X12: a refresh whose call is rejected, or answered with a falsy value,
    keeps the analysis as it was: snapshot, displayed set, statistics, mode,
    query, record set and visibility are unchanged; the rejection is shown
    as an error after the start notice, the falsy answer is not reported. *)
Theorem failed_refresh_keeps_analysis (s : State) :
  (forall err,
      (feedbacks (refreshFeedbacksAnalysis (Rejected err) s),
       showFeedbackAnalysis (refreshFeedbacksAnalysis (Rejected err) s),
       page (refreshFeedbacksAnalysis (Rejected err) s))
      = (feedbacks s, showFeedbackAnalysis s, page s)
      /\ originalFeedbacksData (refreshFeedbacksAnalysis (Rejected err) s)
         = originalFeedbacksData s
      /\ parsedFeedbacksData (refreshFeedbacksAnalysis (Rejected err) s)
         = parsedFeedbacksData s
      /\ (totalItems (refreshFeedbacksAnalysis (Rejected err) s),
          positiveCount (refreshFeedbacksAnalysis (Rejected err) s),
          negativeCount (refreshFeedbacksAnalysis (Rejected err) s))
         = (totalItems s, positiveCount s, negativeCount s)
      /\ (activeFilter (refreshFeedbacksAnalysis (Rejected err) s),
          searchQuery (refreshFeedbacksAnalysis (Rejected err) s))
         = (activeFilter s, searchQuery s)
      /\ toasts (refreshFeedbacksAnalysis (Rejected err) s)
         = (toasts s ++ [ToastInfo "Refreshing feedback analysis...";
                         ToastError err])%list)
  /\ refreshFeedbacksAnalysis (Fulfilled None) s
     = toast (ToastInfo "Refreshing feedback analysis...") s.
Proof.
  split; [|reflexivity]. intros err. cbn.
  repeat split. now rewrite <- app_assoc.
Qed.

(* ------------------------------------------------------------------------- *)
(** ** Export                                                                 *)
(* ------------------------------------------------------------------------- *)

Section ExportFacts.

Lemma length_append (a b : string) :
  String.length (a ++ b) = String.length a + String.length b.
Proof. induction a as [|c r IH]; simpl; [reflexivity | now rewrite IH]. Qed.

Lemma append_cancel_l (a x y : string) : a ++ x = a ++ y -> x = y.
Proof. induction a as [|c r IH]; simpl; [auto|]. intros [= H]. auto. Qed.

Lemma append_cancel_r (a b c : string) : a ++ c = b ++ c -> a = b.
Proof.
  revert b. induction a as [|x a IH]; intros [|y b] H; simpl in H.
  - reflexivity.
  - apply (f_equal String.length) in H. simpl in H.
    rewrite length_append in H. lia.
  - apply (f_equal String.length) in H. simpl in H.
    rewrite length_append in H. lia.
  - injection H as -> H. now rewrite (IH b H).
Qed.

Lemma decimal_inj (a b : N) : decimal a = decimal b -> a = b.
Proof.
  unfold decimal. intros H. apply DecimalN.Unsigned.to_uint_inj.
  apply (f_equal NilEmpty.uint_of_string) in H.
  rewrite !NilEmpty.usu in H. now injection H.
Qed.

End ExportFacts.

(** X13: export never changes the component's variables.  It hands a file to
    the browser exactly when the call is fulfilled with an array, also an
    empty one, and the file then holds the array as fetched, snapshots and
    users included; a rejected call shows the error and produces no file. *)
Theorem exportHandler_outcomes (now : N) (s : State) :
  (forall exported,
      exportHandler (Fulfilled (Some exported)) now s
      = (s, Some (Download.make exported (exportFilename now))))
  /\ exportHandler (Fulfilled None) now s = (s, None)
  /\ (forall err,
        exportHandler (Rejected err) now s = (toast (ToastError err) s, None))
  /\ (forall settled d,
        snd (exportHandler settled now s) = Some d ->
        settled = Fulfilled (Some (Download.content d)))
  /\ (forall settled,
        (feedbacks (fst (exportHandler settled now s)),
         originalFeedbacksData (fst (exportHandler settled now s)),
         parsedFeedbacksData (fst (exportHandler settled now s)),
         showFeedbackAnalysis (fst (exportHandler settled now s)),
         activeFilter (fst (exportHandler settled now s)),
         searchQuery (fst (exportHandler settled now s)),
         page (fst (exportHandler settled now s)))
        = (feedbacks s, originalFeedbacksData s, parsedFeedbacksData s,
           showFeedbackAnalysis s, activeFilter s, searchQuery s, page s)
        /\ (totalItems (fst (exportHandler settled now s)),
            positiveCount (fst (exportHandler settled now s)),
            negativeCount (fst (exportHandler settled now s)))
           = (totalItems s, positiveCount s, negativeCount s)).
Proof.
  split; [reflexivity|]. split; [reflexivity|]. split; [reflexivity|]. split.
  - intros [[exported|]|err] d; cbn; [|discriminate|discriminate].
    now intros [= <-].
  - intros [[exported|]|err]; cbn; split; reflexivity.
Qed.

(** X14: the exported file is named after the export time in decimal, and
    two exports get the same name only if they were made at the same
    millisecond. *)
Theorem exportFilename_injective (a b : N) :
  (exportFilename a = exportFilename b <-> a = b)
  /\ exportFilename 1700000000000
     = "feedback-history-export-1700000000000.json".
Proof.
  split; [|reflexivity]. split; [|now intros ->].
  unfold exportFilename. intros H.
  apply append_cancel_l, append_cancel_r in H. now apply decimal_inj.
Qed.

(* ------------------------------------------------------------------------- *)
(** ** Share: what the listeners deliver                                      *)
(* ------------------------------------------------------------------------- *)

(** The listeners that hold a tab. *)
Definition openListeners (w : Window) : nat :=
  List.length (filter hasTab (listeners w)).

(** The listeners that hold no tab. *)
Definition blockedListeners (w : Window) : list Listener.t :=
  filter (fun l => negb (hasTab l)) (listeners w).

(** What a listener posts when it fires: its payload to its tab, if it
    holds one. *)
Definition deliveryOf (l : Listener.t) : list (nat * list Feedback.t) :=
  match Listener.tab l with
  | Some t => [(t, Listener.payload l)]
  | None => []
  end.

Section ShareFacts.

Lemma invoke_isLoaded (l : Listener.t) (event : MessageEvent.t) :
  invoke l event
  = if isLoaded event then
      match Listener.tab l with
      | Some t => Posted t (Listener.payload l)
      | None => Threw
      end
    else Ignored.
Proof.
  unfold invoke, messageHandler, isLoaded.
  destruct (String.eqb (MessageEvent.origin event) url); cbn [negb andb];
    [|reflexivity].
  now destruct (String.eqb (MessageEvent.data event) "loaded").
Qed.

Lemma dispatch_listeners_conserve (event : MessageEvent.t) (ls : list Listener.t) :
  List.length (flat_map (fun l => posts l event) ls)
  + List.length (filter hasTab (filter (fun l => negb (retires l event)) ls))
  = List.length (filter hasTab ls).
Proof.
  induction ls as [|l ls IH]; [reflexivity|].
  cbn [flat_map filter]. rewrite length_app.
  assert (Hl : (List.length (posts l event) = 1 /\ retires l event = true
                /\ hasTab l = true)
               \/ (List.length (posts l event) = 0 /\ retires l event = false)).
  { unfold posts, retires, hasTab. rewrite invoke_isLoaded.
    destruct (isLoaded event), (Listener.tab l); auto. }
  destruct Hl as [(Hp & Hr & Ht) | (Hp & Hr)]; rewrite Hp, Hr; cbn [negb].
  - rewrite Ht. cbn [List.length]. lia.
  - cbn [filter]. destruct (hasTab l); cbn [List.length]; lia.
Qed.

Lemma dispatch_blocked_stay (event : MessageEvent.t) (ls : list Listener.t) :
  filter (fun l => negb (hasTab l)) (filter (fun l => negb (retires l event)) ls)
  = filter (fun l => negb (hasTab l)) ls.
Proof.
  rewrite filter_filter_and. apply filter_ext. intros l.
  unfold retires, hasTab. rewrite invoke_isLoaded.
  destruct (isLoaded event), (Listener.tab l); reflexivity.
Qed.

Lemma dispatchEvent_conserve (event : MessageEvent.t) (w : Window) :
  List.length (posted (dispatchEvent event w)) + openListeners (dispatchEvent event w)
  = List.length (posted w) + openListeners w
  /\ blockedListeners (dispatchEvent event w) = blockedListeners w.
Proof.
  unfold openListeners, blockedListeners, dispatchEvent.
  cbn [posted listeners]. rewrite length_app, dispatch_blocked_stay.
  pose proof (dispatch_listeners_conserve event (listeners w)). split; [lia|reflexivity].
Qed.

Lemma dispatchAll_no_listener (events : list MessageEvent.t)
    (ps : list (nat * list Feedback.t)) :
  dispatchAll events (mkWindow [] ps) = mkWindow [] ps.
Proof.
  induction events as [|e es IH]; [reflexivity|].
  cbn [dispatchAll fold_left] in *. unfold dispatchEvent at 2.
  cbn [listeners posted filter flat_map]. now rewrite app_nil_r.
Qed.

Lemma dispatchEvent_single (l : Listener.t) (event : MessageEvent.t) :
  dispatchEvent event (mkWindow [l] [])
  = match invoke l event with
    | Posted t p => mkWindow [] [(t, p)]
    | _ => mkWindow [l] []
    end.
Proof.
  unfold dispatchEvent, retires, posts. cbn [listeners posted filter flat_map].
  now destruct (invoke l event).
Qed.

Lemma share_conserve_all (events : list MessageEvent.t) (w : Window) :
  List.length (posted (dispatchAll events w)) + openListeners (dispatchAll events w)
  = List.length (posted w) + openListeners w
  /\ blockedListeners (dispatchAll events w) = blockedListeners w.
Proof.
  revert w. induction events as [|e es IH]; intros w; [split; reflexivity|].
  cbn [dispatchAll fold_left]. fold (dispatchAll es (dispatchEvent e w)).
  destruct (IH (dispatchEvent e w)) as [H1 H2].
  destruct (dispatchEvent_conserve e w) as [H3 H4].
  split; [lia | congruence].
Qed.

Lemma flat_map_nothing {A B : Type} (l : list A) :
  flat_map (fun _ : A => @nil B) l = [].
Proof. induction l as [|x l IH]; [reflexivity | exact IH]. Qed.

(** A message fires every listener that holds a tab if it is the "loaded"
    message of the expected origin, and no listener otherwise. *)
Lemma dispatchEvent_cases (event : MessageEvent.t) (w : Window) :
  dispatchEvent event w
  = if isLoaded event
    then mkWindow (blockedListeners w)
           (posted w ++ flat_map deliveryOf (listeners w))%list
    else mkWindow (listeners w) (posted w).
Proof.
  unfold dispatchEvent, blockedListeners.
  destruct (isLoaded event) eqn:El; f_equal.
  - apply filter_ext. intros l. unfold retires, hasTab.
    rewrite invoke_isLoaded, El. now destruct (Listener.tab l).
  - f_equal. apply flat_map_ext. intros l. unfold posts, deliveryOf.
    rewrite invoke_isLoaded, El. now destruct (Listener.tab l).
  - rewrite <- (filter_true (listeners w)) at 2. apply filter_ext.
    intros l. unfold retires. now rewrite invoke_isLoaded, El.
  - rewrite <- (app_nil_r (posted w)) at 2. f_equal.
    rewrite <- (flat_map_nothing (listeners w)). apply flat_map_ext.
    intros l. unfold posts. now rewrite invoke_isLoaded, El.
Qed.

Lemma deliveryOf_blocked (w : Window) :
  flat_map deliveryOf (blockedListeners w) = [].
Proof.
  unfold blockedListeners. induction (listeners w) as [|l ls IH]; [reflexivity|].
  cbn [filter]. destruct (hasTab l) eqn:Et; cbn [negb]; [exact IH|].
  cbn [flat_map]. rewrite IH. unfold deliveryOf, hasTab in *.
  now destruct (Listener.tab l).
Qed.

Lemma blocked_of_fired (w : Window) (ps : list (nat * list Feedback.t)) :
  blockedListeners (mkWindow (blockedListeners w) ps) = blockedListeners w.
Proof. unfold blockedListeners. cbn [listeners]. apply filter_idem. Qed.

Lemma deliveryOf_length (w : Window) :
  List.length (flat_map deliveryOf (listeners w)) = openListeners w.
Proof.
  unfold openListeners. induction (listeners w) as [|l ls IH]; [reflexivity|].
  cbn [flat_map filter]. rewrite length_app, IH.
  unfold deliveryOf, hasTab. now destruct (Listener.tab l).
Qed.

End ShareFacts.

(** X15: with any number of share actions pending, no listener ever posts
    twice.  As long as no message is "loaded" from the expected origin,
    nothing is posted and every listener stays; the first such message makes
    each listener that holds a tab post its own payload to its own tab, once
    and in the order of installation, and retires it; after that only the
    listeners without a tab remain and no later message posts anything. *)
Theorem share_posts_at_most_once (events : list MessageEvent.t) (w : Window) :
  posted (dispatchAll events w)
  = (posted w
     ++ (if existsb isLoaded events then flat_map deliveryOf (listeners w)
         else []))%list
  /\ listeners (dispatchAll events w)
     = (if existsb isLoaded events then blockedListeners w else listeners w)
  /\ List.length (flat_map deliveryOf (listeners w)) = openListeners w
  /\ List.length (posted (dispatchAll events w))
      + openListeners (dispatchAll events w)
     = List.length (posted w) + openListeners w.
Proof.
  assert (Hp : posted (dispatchAll events w)
    = (posted w
       ++ (if existsb isLoaded events then flat_map deliveryOf (listeners w)
           else []))%list
    /\ listeners (dispatchAll events w)
       = (if existsb isLoaded events then blockedListeners w else listeners w)).
  { revert w. induction events as [|e es IH]; intros w.
    - cbn. now rewrite app_nil_r.
    - cbn [dispatchAll fold_left existsb].
      fold (dispatchAll es (dispatchEvent e w)).
      destruct (IH (dispatchEvent e w)) as [-> ->].
      rewrite dispatchEvent_cases. destruct (isLoaded e); cbn [orb].
      + rewrite blocked_of_fired. cbn [posted listeners].
        rewrite deliveryOf_blocked.
        destruct (existsb isLoaded es); rewrite ?app_nil_r; split; reflexivity.
      + split; reflexivity. }
  split; [exact (proj1 Hp)|]. split; [exact (proj2 Hp)|].
  split; [apply deliveryOf_length|].
  exact (proj1 (share_conserve_all events w)).
Qed.

(** X16: after one share action that opened a tab, the payload is posted to
    that tab exactly once if some arriving message is "loaded" from the
    expected origin, and the listener is then gone; otherwise nothing is
    posted and the listener keeps waiting.  What is posted is the record set
    as it was when the action started, without snapshots and users; messages
    of another origin or with other data have no effect. *)
Theorem share_delivers_on_first_loaded (t : nat) (s : State)
    (events : list MessageEvent.t) :
  posted (dispatchAll events
            (snd (shareHandler_listen (Some t) s (mkWindow [] []))))
  = (if existsb isLoaded events then [(t, map rest (feedbacks s))] else [])
  /\ listeners (dispatchAll events
                  (snd (shareHandler_listen (Some t) s (mkWindow [] []))))
     = (if existsb isLoaded events then []
        else [Listener.make (Some t) (map rest (feedbacks s))]).
Proof.
  cbn [shareHandler_listen shareHandler snd listeners posted app].
  unfold feedbacksToShare.
  set (l := Listener.make (Some t) (map rest (feedbacks s))).
  induction events as [|e es IH]; [split; reflexivity|].
  cbn [dispatchAll fold_left existsb]. rewrite dispatchEvent_single.
  rewrite invoke_isLoaded. destruct (isLoaded e); cbn [orb Listener.tab l].
  - fold (dispatchAll es (mkWindow [] [(t, Listener.payload l)])).
    rewrite dispatchAll_no_listener. split; reflexivity.
  - exact IH.
Qed.

(** X17: when no tab could be opened, the share action never delivers: every
    "loaded" message makes the listener fail before it retires, so nothing
    is ever posted and the listener stays installed. *)
Theorem share_without_tab_never_delivers (s : State)
    (events : list MessageEvent.t) :
  posted (dispatchAll events (snd (shareHandler_listen None s (mkWindow [] []))))
  = []
  /\ listeners (dispatchAll events
                  (snd (shareHandler_listen None s (mkWindow [] []))))
     = [Listener.make None (map rest (feedbacks s))]
  /\ (forall event,
        isLoaded event = true ->
        invoke (Listener.make None (map rest (feedbacks s))) event = Threw).
Proof.
  cbn [shareHandler_listen shareHandler snd listeners posted app].
  unfold feedbacksToShare.
  set (l := Listener.make None (map rest (feedbacks s))).
  split; [|split].
  - induction events as [|e es IH]; [reflexivity|].
    cbn [dispatchAll fold_left]. rewrite dispatchEvent_single, invoke_isLoaded.
    destruct (isLoaded e); exact IH.
  - induction events as [|e es IH]; [reflexivity|].
    cbn [dispatchAll fold_left]. rewrite dispatchEvent_single, invoke_isLoaded.
    destruct (isLoaded e); exact IH.
  - intros event He. rewrite invoke_isLoaded, He. reflexivity.
Qed.

(* ------------------------------------------------------------------------- *)
(** ** What a card and a table row show                                       *)
(* ------------------------------------------------------------------------- *)

(** X18: the heading of a card is never empty: it is the transcript title
    when there is a non-empty one, else the model id of [meta] when there is
    a non-empty one, else "Untitled Chat" (the case of a record with neither
    snapshot nor [meta.model_id]). *)
Theorem cardTitle_never_empty (item : Feedback.t) :
  cardTitle item <> EmptyString
  /\ (forall t, titleOf item = Some t -> t <> EmptyString -> cardTitle item = t)
  /\ (truthyOpt (titleOf item) = false ->
        forall m, metaModelOf item = Some m -> m <> EmptyString ->
                  cardTitle item = m)
  /\ (truthyOpt (titleOf item) = false ->
        truthyOpt (metaModelOf item) = false ->
        cardTitle item = "Untitled Chat").
Proof.
  unfold cardTitle. split; [|split; [|split]].
  - destruct (titleOf item) as [[|a t]|];
      destruct (metaModelOf item) as [[|b m]|]; discriminate.
  - intros t -> Hne. destruct t; [congruence | reflexivity].
  - intros Ht m -> Hne.
    destruct (titleOf item) as [[|a t]|]; try discriminate;
      (destruct m; [congruence | reflexivity]).
  - intros Ht Hm.
    destruct (titleOf item) as [[|a t]|]; try discriminate;
      (destruct (metaModelOf item) as [[|b m]|]; try discriminate; reflexivity).
Qed.

(** X19: the rating text of a card is defined exactly when the record has a
    [data] object.  Every record the modes 'positive' and 'negative' display
    has one, and reads "Positive", respectively "Negative"; mode 'all' with
    an empty query also displays the records without [data], whose card
    cannot be rendered. *)
Theorem cardRating_of_displayed (R : list Feedback.t) (query : string) :
  (forall item, cardRating item = None <-> Feedback.data item = None)
  /\ (forall item, In item (filtered R "positive" query) ->
                   cardRating item = Some "Positive")
  /\ (forall item, In item (filtered R "negative" query) ->
                   cardRating item = Some "Negative")
  /\ (forall item, In item R -> Feedback.data item = None ->
                   In item (filtered R "all" EmptyString)
                   /\ cardRating item = None).
Proof.
  split; [|split; [|split]].
  - intros item. unfold cardRating.
    destruct (Feedback.data item); split; congruence.
  - intros item Hin. apply In_filtered in Hin as (_ & Hr & _).
    change (passesRating "positive" item) with (gt0 (ratingOf item)) in Hr.
    unfold cardRating, ratingOf in *.
    destruct (Feedback.data item) as [d|]; [now rewrite Hr | discriminate].
  - intros item Hin. apply In_filtered in Hin as (_ & Hr & _).
    change (passesRating "negative" item) with (lt0 (ratingOf item)) in Hr.
    unfold cardRating, ratingOf in *.
    destruct (Feedback.data item) as [d|]; [|discriminate].
    rewrite Hr. destruct (gt0 (Data.rating d)) eqn:Eg; [|reflexivity].
    apply gt0_lt0_exclusive in Eg. congruence.
  - intros item Hin Hd. split.
    + apply In_filtered. now repeat split.
    + unfold cardRating. now rewrite Hd.
Qed.

Section CardFacts.

Lemma rowBadge_rated (feedback : Feedback.t) (r : Z) :
  ratingOf feedback = Some r ->
  rowBadge feedback
  = Some (if (r =? 1)%Z then Some "Won"
          else if (r =? 0)%Z then Some "Draw"
          else if (r =? -1)%Z then Some "Lost"
          else None).
Proof.
  unfold ratingOf, rowBadge. destruct (Feedback.data feedback) as [d|];
    [|discriminate]. now intros ->.
Qed.

Lemma rowBadge_unrated (feedback : Feedback.t) :
  ratingOf feedback = None -> rowBadge feedback = None.
Proof.
  unfold ratingOf, rowBadge. destruct (Feedback.data feedback) as [d|];
    [|reflexivity]. now intros ->.
Qed.

Lemma cardRating_rated (item : Feedback.t) (r : Z) :
  ratingOf item = Some r ->
  cardRating item
  = Some (if (0 <? r)%Z then "Positive"
          else if (r <? 0)%Z then "Negative"
          else "Neutral").
Proof.
  unfold ratingOf, cardRating. destruct (Feedback.data item) as [d|];
    [|discriminate]. now intros ->.
Qed.

End CardFacts.

(** X20: the badge of a table row agrees with the classification of the
    analysis: "Won" only on records counted positive, "Lost" only on records
    counted negative, "Draw" only on records counted as neither; a rating
    other than 1, 0 and -1 gets no badge; and the row cannot be rendered
    exactly when [data] or [data.rating] is absent. *)
Theorem rowBadge_agrees_with_counts (feedback : Feedback.t) :
  (rowBadge feedback = Some (Some "Won") ->
     isPositive feedback = true /\ cardRating feedback = Some "Positive")
  /\ (rowBadge feedback = Some (Some "Lost") ->
        isNegative feedback = true /\ cardRating feedback = Some "Negative")
  /\ (rowBadge feedback = Some (Some "Draw") ->
        isPositive feedback = false /\ isNegative feedback = false
        /\ cardRating feedback = Some "Neutral")
  /\ (rowBadge feedback = Some None <->
        exists r, ratingOf feedback = Some r
                  /\ r <> 1%Z /\ r <> 0%Z /\ r <> (-1)%Z)
  /\ (rowBadge feedback = None <-> ratingAbsent feedback).
Proof.
  destruct (ratingOf feedback) as [r|] eqn:Er.
  - rewrite (rowBadge_rated _ _ Er), (cardRating_rated _ _ Er).
    unfold isPositive, isNegative. rewrite Er. cbn [gt0 lt0].
    split; [|split; [|split; [|split]]].
    + destruct (Z.eqb_spec r 1) as [->|H1]; [now split|].
      destruct (r =? 0)%Z, (r =? -1)%Z; discriminate.
    + destruct (Z.eqb_spec r 1) as [->|H1]; [discriminate|].
      destruct (Z.eqb_spec r 0) as [->|H0]; [discriminate|].
      destruct (Z.eqb_spec r (-1)) as [->|Hm]; [now split | discriminate].
    + destruct (Z.eqb_spec r 1) as [->|H1]; [discriminate|].
      destruct (Z.eqb_spec r 0) as [->|H0]; [now repeat split|].
      destruct (r =? -1)%Z; discriminate.
    + destruct (Z.eqb_spec r 1) as [->|H1];
        [split; [discriminate | intros (r' & [= <-] & H & _); congruence]|].
      destruct (Z.eqb_spec r 0) as [->|H0];
        [split; [discriminate | intros (r' & [= <-] & _ & H & _); congruence]|].
      destruct (Z.eqb_spec r (-1)) as [->|Hm];
        [split; [discriminate | intros (r' & [= <-] & _ & _ & H); congruence]|].
      split; [intros _; now exists r | reflexivity].
    + split; [discriminate|]. intros H.
      apply ratingAbsent_ratingOf in H. congruence.
  - rewrite (rowBadge_unrated _ Er). unfold isPositive, isNegative. rewrite Er.
    cbn [gt0 lt0]. split; [discriminate|]. split; [discriminate|].
    split; [discriminate|]. split.
    + split; [discriminate | intros (r & H & _); discriminate].
    + split; [intros _; now apply ratingAbsent_ratingOf | reflexivity].
Qed.

(** A record of rating 1 is "Won" in the table and counted positive. *)
Lemma rowBadge_agrees_with_counts_witness :
  rowBadge (rated "a" 1) = Some (Some "Won")
  /\ isPositive (rated "a" 1) = true.
Proof.
  assert (H : rowBadge (rated "a" 1) = Some (Some "Won")) by reflexivity.
  split; [exact H|].
  exact (proj1 (proj1 (rowBadge_agrees_with_counts (rated "a" 1)) H)).
Defined.

(* ------------------------------------------------------------------------- *)
(** ** The formatter: empty input, and what it does not escape                *)
(* ------------------------------------------------------------------------- *)

Section FormatterFacts.

Lemma renderMessage_starts_with_newline (m : Message.t) :
  exists r, renderMessage m = String (ascii_of_nat 10) r.
Proof. unfold renderMessage, template, nl. cbn [String.append]. eauto. Qed.

Lemma substring_of_refl (s : string) : substring_of s s.
Proof. exists EmptyString, EmptyString. cbn. now rewrite append_empty_r. Qed.

Lemma substring_of_app_l (a s t : string) :
  substring_of s t -> substring_of s (a ++ t).
Proof.
  intros (x & y & ->). exists (a ++ x), y. now rewrite append_assoc.
Qed.

Lemma substring_of_app_r (a s t : string) :
  substring_of s t -> substring_of s (t ++ a).
Proof.
  intros (x & y & ->). exists x, (y ++ a). now rewrite !append_assoc.
Qed.

Lemma displayContent_in_block (m : Message.t) :
  substring_of (displayContent m) (renderMessage m).
Proof.
  unfold renderMessage, template.
  repeat (first [ apply substring_of_app_r, substring_of_refl
                | apply substring_of_app_l ]).
Qed.

Lemma block_in_conversation (m : Message.t) (ms : list Message.t) :
  In m ms -> substring_of (renderMessage m) (formatConversation (Some ms)).
Proof.
  intros Hin. apply in_split in Hin as (before & after & ->).
  rewrite formatConversation_app, formatConversation_cons.
  apply substring_of_app_l, substring_of_app_r, substring_of_refl.
Qed.

End FormatterFacts.

(** X21: for an array the formatter never returns the "no data"
    placeholder, and it returns the empty string exactly when the array has
    no message: a snapshot with an empty message list is rendered as
    nothing at all. *)
Theorem formatConversation_of_array (ms : list Message.t) :
  formatConversation (Some ms) <> noConversation
  /\ (formatConversation (Some ms) = EmptyString <-> ms = []).
Proof.
  destruct ms as [|m ms].
  - split; [discriminate | split; reflexivity].
  - rewrite formatConversation_cons.
    destruct (renderMessage_starts_with_newline m) as (r & ->).
    split; [discriminate | split; discriminate].
Qed.

(** X22: the formatter escapes nothing: the content of every message, and
    its error text when it has one, stand in the returned markup character
    for character, so markup inside a message reaches the page as markup. *)
Theorem formatConversation_inserts_text_verbatim (ms : list Message.t)
    (m : Message.t) :
  In m ms ->
  substring_of (contentOrEmpty m) (formatConversation (Some ms))
  /\ (forall text, hasErrorText m text ->
                   substring_of text (formatConversation (Some ms))).
Proof.
  intros Hin.
  pose proof (substring_of_trans _ _ _ (displayContent_in_block m)
                (block_in_conversation m ms Hin)) as Hd.
  split.
  - refine (substring_of_trans _ _ _ _ Hd). unfold displayContent.
    destruct (errorText m); [apply substring_of_app_r|]; apply substring_of_refl.
  - intros text Ht. apply errorText_spec in Ht.
    refine (substring_of_trans _ _ _ _ Hd). unfold displayContent. rewrite Ht.
    unfold errorBlock.
    apply substring_of_app_l, substring_of_app_l, substring_of_app_r,
      substring_of_refl.
Qed.

(** A script element in a message content is in the output as it is. *)
Lemma formatConversation_inserts_text_verbatim_witness :
  In (Message.make "user" (Some "<script>alert(1)</script>") None None None)
     [Message.make "user" (Some "<script>alert(1)</script>") None None None]
  /\ substring_of "<script>alert(1)</script>"
       (formatConversation
          (Some [Message.make "user" (Some "<script>alert(1)</script>")
                   None None None])).
Proof.
  assert (H : In (Message.make "user" (Some "<script>alert(1)</script>") None None None)
                [Message.make "user" (Some "<script>alert(1)</script>") None None None])
    by (now left).
  split; [exact H|].
  exact (proj1 (formatConversation_inserts_text_verbatim _ _ H)).
Defined.

(* ------------------------------------------------------------------------- *)
(** ** The formatter against the rendering the specification describes        *)
(* ------------------------------------------------------------------------- *)

(** Who speaks in a rendered message. *)
Inductive Turn := UserTurn | AssistantTurn.

(** What the specification says is rendered of one message: who speaks, the
    text, the error text if any, and whether the message is flagged. *)
Record Rendering := mkRendering {
  speaker : Turn;
  text : string;
  errorOf : option string;
  flagged : bool
}.

(** The rendering describes the message: the speaker is the user iff the
    role is "user", the text is the content (nothing when there is none),
    the error text is the message's, and the message is flagged iff it
    carries an annotation or a feedback linkage. *)
Definition describes (m : Message.t) (r : Rendering) : Prop :=
  (speaker r = UserTurn <-> Message.role m = "user")
  /\ (forall c, Message.content m = Some c -> text r = c)
  /\ (Message.content m = None -> text r = EmptyString)
  /\ (forall t, errorOf r = Some t <-> hasErrorText m t)
  /\ (flagged r = true <-> carriesFeedback m).

(** The markup of a rendering, written out piece by piece. *)
Definition blockOpening (who : Turn) : string :=
  nl ++ tabs 4 ++ "<div class=" ++ dq
  ++ match who with
     | UserTurn => "bg-gray-50 dark:bg-gray-800 p-3 rounded-lg mb-2 "
     | AssistantTurn => "bg-gray-100 dark:bg-gray-700 p-3 rounded-lg mb-2 "
     end.

Definition labelElement (who : Turn) : string :=
  "<div class=" ++ dq ++ "font-medium text-gray-700 dark:text-gray-300" ++ dq ++ ">"
  ++ match who with
     | UserTurn => "User"
     | AssistantTurn => "Assistant"
     end
  ++ "</div>".

Definition errorElement (t : string) : string :=
  "<div class=" ++ dq ++ "text-red-500 dark:text-red-400 text-xs mt-1" ++ dq ++ ">"
  ++ t ++ "</div>".

Definition markerElement : string :=
  "<div class=" ++ dq ++ "text-red-500 dark:text-red-400 text-xs font-medium mt-1"
  ++ dq ++ ">[This message received feedback]</div>".

Definition blockClosing : string :=
  nl ++ tabs 4 ++ "</div>" ++ nl ++ tabs 3.

Definition markupOf (r : Rendering) : string :=
  blockOpening (speaker r)
  ++ (if flagged r then "border-2 border-red-500 dark:border-red-400"
      else EmptyString)
  ++ dq ++ ">"
  ++ nl ++ tabs 5 ++ labelElement (speaker r)
  ++ nl ++ tabs 5
  ++ "<div class=" ++ dq ++ "text-sm mt-1 text-gray-600 dark:text-gray-300" ++ dq ++ ">"
  ++ text r
  ++ match errorOf r with
     | Some t => errorElement t
     | None => EmptyString
     end
  ++ "</div>"
  ++ nl ++ tabs 5
  ++ (if flagged r then markerElement else EmptyString)
  ++ blockClosing.

(** The string ends with the given suffix. *)
Definition endsWith (s suffix : string) : Prop :=
  exists before, s = before ++ suffix.

(** The last code unit of a string. *)
Fixpoint lastChar (s : string) : option ascii :=
  match s with
  | EmptyString => None
  | String c EmptyString => Some c
  | String _ r => lastChar r
  end.

(** The rendering read off a message. *)
Definition renderingOf (m : Message.t) : Rendering :=
  mkRendering (if isUser m then UserTurn else AssistantTurn)
    (contentOrEmpty m) (errorText m) (hasFeedback m).

Section RenderingFacts.

Lemma describes_renderingOf (m : Message.t) : describes m (renderingOf m).
Proof.
  unfold describes, renderingOf.
  cbn [speaker text errorOf flagged].
  split; [|split; [|split; [|split]]].
  - unfold isUser. destruct (String.eqb_spec (Message.role m) "user");
      split; congruence.
  - unfold contentOrEmpty. now intros c ->.
  - unfold contentOrEmpty. now intros ->.
  - intros t. apply errorText_spec.
  - apply hasFeedback_spec.
Qed.

(** A rendering that describes a message is the one read off it. *)
Lemma describes_unique (m : Message.t) (r : Rendering) :
  describes m r -> r = renderingOf m.
Proof.
  intros (Hs & Hc & Hn & He & Hf). destruct r as [who txt err flg].
  cbn [speaker text errorOf flagged] in *. unfold renderingOf. f_equal.
  - unfold isUser. destruct (String.eqb_spec (Message.role m) "user") as [E|E].
    + now apply Hs.
    + destruct who; [|reflexivity]. destruct E. now apply Hs.
  - unfold contentOrEmpty. destruct (Message.content m) as [c|];
      [now apply Hc | now apply Hn].
  - destruct err as [t|].
    + symmetry. apply errorText_spec, He. reflexivity.
    + destruct (errorText m) as [t|] eqn:E; [|reflexivity].
      apply errorText_spec, He in E. discriminate.
  - pose proof (hasFeedback_spec m) as H. destruct flg, (hasFeedback m); try reflexivity.
    + symmetry. apply H, Hf. reflexivity.
    + apply Hf, H. reflexivity.
Qed.

Lemma renderMessage_markupOf (m : Message.t) :
  renderMessage m = markupOf (renderingOf m).
Proof.
  unfold renderMessage, template, markupOf, renderingOf, blockOpening,
    labelElement, className, roleLabel, feedbackHighlight, feedbackMarker,
    displayContent, openTag, feedbackMarkerBlock, markerElement, errorElement,
    errorBlock, openTag.
  cbn [speaker text errorOf flagged].
  destruct (isUser m), (hasFeedback m), (errorText m);
    repeat rewrite append_assoc; reflexivity.
Qed.
End RenderingFacts.

Section StringLevel.

Lemma lastChar_app (a b : string) :
  b <> EmptyString -> lastChar (a ++ b) = lastChar b.
Proof.
  intros Hb. induction a as [|c a IH]; [reflexivity|].
  cbn [String.append lastChar]. rewrite IH.
  destruct (a ++ b) eqn:E; [|reflexivity].
  apply append_eq_empty in E as [_ E]. contradiction.
Qed.

Lemma blockOpening_prefix (m : Message.t) (who : Turn) :
  String.prefix (blockOpening who) (renderMessage m) = true
  <-> speaker (renderingOf m) = who.
Proof.
  rewrite prefix_spec, renderMessage_markupOf.
  unfold markupOf. destruct (speaker (renderingOf m)), who; split.
  - reflexivity.
  - intros _. eexists. reflexivity.
  - intros [after H]. vm_compute in H. congruence.
  - intros H. discriminate H.
  - intros [after H]. vm_compute in H. congruence.
  - intros H. discriminate H.
  - reflexivity.
  - intros _. eexists. reflexivity.
Qed.

Lemma marker_suffix (m : Message.t) :
  endsWith (renderMessage m) (markerElement ++ blockClosing)
  <-> hasFeedback m = true.
Proof.
  rewrite renderMessage_markupOf. unfold markupOf, renderingOf, endsWith.
  cbn [speaker text errorOf flagged].
  set (who := if isUser m then UserTurn else AssistantTurn).
  destruct (hasFeedback m); split; try reflexivity; try discriminate.
  - intros _. eexists. repeat rewrite <- append_assoc. reflexivity.
  - intros [before H]. exfalso.
    rewrite <- (append_assoc before) in H.
    repeat rewrite <- append_assoc in H.
    apply append_cancel_r in H. rewrite !append_empty_r in H.
    apply (f_equal lastChar) in H.
    rewrite (lastChar_app before markerElement) in H
      by (intros E; vm_compute in E; discriminate E).
    rewrite lastChar_app in H by (intros E; vm_compute in E; discriminate E).
    vm_compute in H. discriminate H.
Qed.

End StringLevel.

Section RenderingLists.

Lemma renderMessage_described (m : Message.t) (r : Rendering) :
  describes m r -> renderMessage m = markupOf r.
Proof.
  intros H. rewrite (describes_unique m r H). apply renderMessage_markupOf.
Qed.

Lemma formatConversation_described (ms : list Message.t) (rs : list Rendering) :
  Forall2 describes ms rs ->
  formatConversation (Some ms) = join (map markupOf rs).
Proof.
  induction 1 as [|m r ms rs Hmr _ IH]; [reflexivity|].
  rewrite formatConversation_cons, IH, (renderMessage_described m r Hmr).
  reflexivity.
Qed.

Lemma every_message_described (ms : list Message.t) :
  Forall2 describes ms (map renderingOf ms).
Proof.
  induction ms as [|m ms IH]; constructor;
    [apply describes_renderingOf | exact IH].
Qed.

Lemma formatConversation_single (m : Message.t) :
  formatConversation (Some [m]) = renderMessage m.
Proof.
  cbn [formatConversation map join fold_right]. apply append_empty_r.
Qed.

Lemma errorElement_in_block (m : Message.t) (t : string) :
  hasErrorText m t ->
  substring_of (contentOrEmpty m ++ errorElement t ++ "</div>") (renderMessage m).
Proof.
  intros Ht. apply errorText_spec in Ht.
  rewrite renderMessage_markupOf. unfold markupOf, renderingOf.
  cbn [speaker text errorOf flagged]. rewrite Ht.
  do 14 apply substring_of_app_l.
  exists EmptyString. eexists. cbn [String.append].
  repeat rewrite append_assoc. reflexivity.
Qed.

End RenderingLists.

(** C9: on a value that is not an array the formatter returns the one "no
    data" placeholder.  On an array it returns, concatenated in the order of
    the input, one block per message: the markup of the rendering that
    describes the message, in which the speaker is the user iff the role is
    "user" and the assistant otherwise, the text is the content, the error
    text (an error with non-empty content) follows the text as an element of
    its own, and the border highlight and the "[This message received
    feedback]" element are there iff the message carries an annotation or a
    feedback linkage.  In the returned string itself: the block of a message
    opens with the user style iff the role is "user", and ends with the
    feedback element iff the message carries an annotation or a feedback
    linkage. *)
Theorem formatConversation_spec :
  formatConversation None
  = "<p class=" ++ dq ++ "text-gray-500 dark:text-gray-400 text-sm" ++ dq
    ++ ">No conversation data available</p>"
  /\ (forall ms rs,
        Forall2 describes ms rs ->
        formatConversation (Some ms) = join (map markupOf rs))
  /\ (forall ms, exists rs, Forall2 describes ms rs)
  /\ (forall ms ms',
        formatConversation (Some (ms ++ ms')%list)
        = formatConversation (Some ms) ++ formatConversation (Some ms'))
  /\ (forall m,
        (String.prefix (blockOpening UserTurn) (formatConversation (Some [m])) = true
         <-> Message.role m = "user")
        /\ (String.prefix (blockOpening AssistantTurn)
              (formatConversation (Some [m])) = true
            <-> Message.role m <> "user"))
  /\ (forall m,
        endsWith (formatConversation (Some [m])) (markerElement ++ blockClosing)
        <-> carriesFeedback m)
  /\ (forall m t,
        hasErrorText m t ->
        substring_of (contentOrEmpty m ++ errorElement t ++ "</div>")
          (formatConversation (Some [m]))).
Proof.
  split; [reflexivity|].
  split; [exact formatConversation_described|].
  split; [intros ms; exists (map renderingOf ms); apply every_message_described|].
  split; [exact formatConversation_app|].
  split; [|split].
  - intros m. rewrite formatConversation_single, !blockOpening_prefix.
    unfold renderingOf, isUser. cbn [speaker].
    destruct (String.eqb_spec (Message.role m) "user") as [E|E];
      split; split; try congruence; try reflexivity.
  - intros m. rewrite formatConversation_single, marker_suffix.
    apply hasFeedback_spec.
  - intros m t Ht. rewrite formatConversation_single.
    now apply errorElement_in_block.
Qed.

(** A user turn followed by an assistant turn that has an error and an
    annotation: the output is the markup of the two renderings, in order. *)
Lemma formatConversation_spec_witness :
  Forall2 describes
    [Message.make "user" (Some "hi") None None None;
     Message.make "assistant" (Some "yo") (Some "bad") None
       (Some (MessageError.make (Some "boom")))]
    [mkRendering UserTurn "hi" None false;
     mkRendering AssistantTurn "yo" (Some "boom") true]
  /\ formatConversation
       (Some [Message.make "user" (Some "hi") None None None;
              Message.make "assistant" (Some "yo") (Some "bad") None
                (Some (MessageError.make (Some "boom")))])
     = markupOf (mkRendering UserTurn "hi" None false)
       ++ markupOf (mkRendering AssistantTurn "yo" (Some "boom") true).
Proof.
  assert (H : Forall2 describes
    [Message.make "user" (Some "hi") None None None;
     Message.make "assistant" (Some "yo") (Some "bad") None
       (Some (MessageError.make (Some "boom")))]
    [mkRendering UserTurn "hi" None false;
     mkRendering AssistantTurn "yo" (Some "boom") true]).
  { constructor; [|constructor; [|constructor]].
    - exact (describes_renderingOf
               (Message.make "user" (Some "hi") None None None)).
    - exact (describes_renderingOf
               (Message.make "assistant" (Some "yo") (Some "bad") None
                  (Some (MessageError.make (Some "boom"))))). }
  split; [exact H|].
  rewrite (proj1 (proj2 formatConversation_spec) _ _ H).
  cbn [map join fold_right]. now rewrite append_empty_r.
Defined.
